(** * Verification of the team-gate web application (src/index.js)

    The application is a set of Express route handlers.  Each handler
    reads the session and the request, calls external collaborators
    (the identity SOAP service, the chess platform's team API, the
    OAuth token endpoint, the document store) and answers with a
    rendered page or a redirect.

    The embedding follows the source handler by handler:
    - JavaScript values that are tested for truthiness are a small
      inductive type with the language's [ToBoolean];
    - strings are sequences of one-byte code units ([string]); over
      them the ['ascii'] input encoding of the hash is the identity;
    - [crypto.createHash('sha1')] is SHA-1, written out on 32-bit words;
    - [String.prototype.replace] with the masking regular expression is
      a left-to-right search for the first matching index;
    - the handlers run in a monad that threads the record store and the
      log of calls issued, and in which a rejected promise is an
      exception that [try ... catch] intercepts while the effects made
      before it persist; a promise that never settles leaves the
      request without a response;
    - numbers of the schema type [Number] are binary64 floats. *)

From Stdlib Require Import ZArith List String Ascii Bool Arith Lia Permutation.
From Stdlib Require Import PrimFloat.
Import ListNotations.
Local Open Scope string_scope.

(** ** JavaScript values and results *)

Module JS.

Inductive Val : Type :=
| Undefined
| Null
| Boolean (b : bool)
| Number (n : Z)
| Str (s : string).

(** [ToBoolean]: what [if (x)] and [!x] test. *)
Definition truthy (v : Val) : bool :=
  match v with
  | Undefined | Null => false
  | Boolean b => b
  | Number n => negb (n =? 0)%Z
  | Str s => negb (s =? "")
  end.

(** A property that may be absent: [undefined] is [None]. *)
Definition truthy_str (o : option string) : bool :=
  match o with
  | None => false
  | Some s => negb (s =? "")
  end.

(** [a || b] on an optional string with a string default. *)
Definition or_default (o : option string) (d : string) : string :=
  match o with
  | Some s => if s =? "" then d else s
  | None => d
  end.

(** The outcome of awaiting a promise. *)
Inductive Res (A : Type) : Type :=
| Ok (a : A)
| Throw (err : string).
Arguments Ok {A} a.
Arguments Throw {A} err.

End JS.
Export JS.

(** ** SHA-1, as [crypto.createHash('sha1')] computes it *)

Module Sha1.
Local Open Scope Z_scope.

Definition w32 (x : Z) : Z := x mod 2 ^ 32.
Definition add32 (x y : Z) : Z := w32 (x + y).
Definition rotl (n x : Z) : Z :=
  w32 (Z.lor (Z.shiftl x n) (Z.shiftr x (32 - n))).
Definition not32 (x : Z) : Z := Z.lxor x (2 ^ 32 - 1).

(** Message padding: a one bit, zeros, the bit length on 64 bits. *)
Definition be_bytes (n : nat) (x : Z) : list Z :=
  map (fun i => Z.shiftr x (8 * Z.of_nat i) mod 256) (rev (seq 0 n)).

Definition pad (msg : list Z) : list Z :=
  let len := Z.of_nat (List.length msg) in
  let zeros := Z.to_nat ((55 - len) mod 64) in
  (msg ++ [128] ++ repeat 0 zeros ++ be_bytes 8 (8 * len))%list.

Fixpoint words (n : nat) (bs : list Z) : list Z :=
  match n with
  | O => []
  | S n' =>
      match bs with
      | b0 :: b1 :: b2 :: b3 :: rest =>
          (b0 * 2 ^ 24 + b1 * 2 ^ 16 + b2 * 2 ^ 8 + b3) :: words n' rest
      | _ => []
      end
  end.

(** The message schedule, kept newest word first. *)
Fixpoint extend (n : nat) (rw : list Z) : list Z :=
  match n with
  | O => rw
  | S n' =>
      let w := rotl 1 (Z.lxor (Z.lxor (nth 2 rw 0) (nth 7 rw 0))
                              (Z.lxor (nth 13 rw 0) (nth 15 rw 0))) in
      extend n' (w :: rw)
  end.

Definition schedule (block : list Z) : list Z :=
  rev (extend 64 (rev (words 16 block))).

Record state : Type := mkState { h0 : Z; h1 : Z; h2 : Z; h3 : Z; h4 : Z }.

Definition init : state :=
  mkState 0x67452301 0xEFCDAB89 0x98BADCFE 0x10325476 0xC3D2E1F0.

Definition f (t : nat) (b c d : Z) : Z :=
  if (t <? 20)%nat then Z.lor (Z.land b c) (Z.land (not32 b) d)
  else if (t <? 40)%nat then Z.lxor (Z.lxor b c) d
  else if (t <? 60)%nat then
    Z.lor (Z.lor (Z.land b c) (Z.land b d)) (Z.land c d)
  else Z.lxor (Z.lxor b c) d.

Definition k (t : nat) : Z :=
  if (t <? 20)%nat then 0x5A827999
  else if (t <? 40)%nat then 0x6ED9EBA1
  else if (t <? 60)%nat then 0x8F1BBCDC
  else 0xCA62C1D6.

Definition round (st : state) (tw : nat * Z) : state :=
  let (t, w) := tw in
  let tmp :=
    add32 (add32 (add32 (add32 (rotl 5 (h0 st)) (f t (h1 st) (h2 st) (h3 st)))
                        (h4 st)) (k t)) w in
  mkState tmp (h0 st) (rotl 30 (h1 st)) (h2 st) (h3 st).

Definition compress (st : state) (block : list Z) : state :=
  let ws := schedule block in
  let r := fold_left round (combine (seq 0 80) ws) st in
  mkState (add32 (h0 st) (h0 r)) (add32 (h1 st) (h1 r))
          (add32 (h2 st) (h2 r)) (add32 (h3 st) (h3 r))
          (add32 (h4 st) (h4 r)).

Fixpoint blocks (n : nat) (bs : list Z) (st : state) : state :=
  match n with
  | O => st
  | S n' =>
      match bs with
      | [] => st
      | _ => blocks n' (skipn 64 bs) (compress st (firstn 64 bs))
      end
  end.

Definition digest (msg : list Z) : state :=
  let p := pad msg in
  blocks (List.length p) p init.

(** [digest('hex')]: eight lower-case hexadecimal digits per word. *)
Definition hex_digit (x : Z) : ascii :=
  let n := Z.to_nat (x mod 16) in
  if (n <? 10)%nat then ascii_of_nat (48 + n) else ascii_of_nat (87 + n).

Definition hex32 (x : Z) : list ascii :=
  map (fun i => hex_digit (Z.shiftr x (4 * Z.of_nat i))) (rev (seq 0 8)).

Definition hex (st : state) : string :=
  string_of_list_ascii
    (hex32 (h0 st) ++ hex32 (h1 st) ++ hex32 (h2 st)
     ++ hex32 (h3 st) ++ hex32 (h4 st))%list.

(** [update(s, 'ascii')]: one byte per code unit. *)
Definition bytes_of (s : string) : list Z :=
  map (fun c => Z.of_nat (nat_of_ascii c)) (list_ascii_of_string s).

Definition sha1_hex (s : string) : string := hex (digest (bytes_of s)).

End Sha1.

(** ** The masking replacement [id.replace(/(?<=\d{3})\d{5}/, '*****')] *)

Module Mask.

(** [\d]: one of the ten ASCII digits. *)
Definition is_digit (c : ascii) : bool :=
  let n := nat_of_ascii c in (48 <=? n)%nat && (n <=? 57)%nat.

(** [\d{n}] read forward from index [i]. *)
Definition digits_at (n : nat) (s : list ascii) (i : nat) : bool :=
  let run := firstn n (skipn i s) in
  (List.length run =? n)%nat && forallb is_digit run.

(** [(?<=\d{3})] at index [i]: the three code units before [i] are digits. *)
Definition lookbehind (s : list ascii) (i : nat) : bool :=
  (3 <=? i)%nat && digits_at 3 s (i - 3).

(** The whole pattern anchored at index [i]. *)
Definition match_at (s : list ascii) (i : nat) : bool :=
  lookbehind s i && digits_at 5 s i.

(** The regular expression has no [g] flag: the engine tries the
    indices [0 .. length s] in order and stops at the first match. *)
Definition exec (s : list ascii) : option nat :=
  find (match_at s) (seq 0 (S (List.length s))).

Definition placeholder : list ascii := list_ascii_of_string "*****".

(** [replace]: the matched five code units give way to the
    placeholder (which holds no [$] pattern); without a match the
    string comes back as it is. *)
Definition replace (s : list ascii) : list ascii :=
  match exec s with
  | Some i => (firstn i s ++ placeholder ++ skipn (i + 5) s)%list
  | None => s
  end.

Definition mask (id : string) : string :=
  string_of_list_ascii (replace (list_ascii_of_string id)).

End Mask.

(** ** The record store: the [Player] model and its queries *)

Module Store.

(** [playerSchema]; a [Number] path holds a number or [null]. *)
Record PlayerRecord : Type := mkPlayer {
  userId : string;
  userName : option string;
  firstName : string;
  lastName : string;
  birthYear : option float;
  govId : string;
  govIdSignature : string;
  banned : bool
}.

(** The condition a filter document puts on [userId]. *)
Inductive UserCond : Type :=
| UEq (u : string)
| UIn (ids : list string)
| UNin (ids : list string).

(** A filter document: an absent key constrains nothing. *)
Record Query : Type := mkQuery {
  q_userId : option UserCond;
  q_govIdSignature : option string;
  q_banned : option bool
}.

Definition mem (u : string) (ids : list string) : bool :=
  existsb (String.eqb u) ids.

Definition user_ok (c : option UserCond) (u : string) : bool :=
  match c with
  | None => true
  | Some (UEq v) => u =? v
  | Some (UIn ids) => mem u ids
  | Some (UNin ids) => negb (mem u ids)
  end.

Definition sig_ok (c : option string) (g : string) : bool :=
  match c with None => true | Some v => g =? v end.

Definition banned_ok (c : option bool) (b : bool) : bool :=
  match c with None => true | Some v => Bool.eqb b v end.

Definition matches (q : Query) (p : PlayerRecord) : bool :=
  user_ok (q_userId q) (userId p)
  && sig_ok (q_govIdSignature q) (govIdSignature p)
  && banned_ok (q_banned q) (banned p).

Definition set_banned (b : bool) (p : PlayerRecord) : PlayerRecord :=
  mkPlayer (userId p) (userName p) (firstName p) (lastName p)
           (birthYear p) (govId p) (govIdSignature p) b.

(** [findOneAndUpdate]: the first matching document, in collection
    order, gets the new flag; the others stay. *)
Fixpoint update_first (q : Query) (b : bool) (l : list PlayerRecord)
  : list PlayerRecord :=
  match l with
  | [] => []
  | p :: rest =>
      if matches q p then set_banned b p :: rest
      else p :: update_first q b rest
  end.

(** The operations the handlers send to the database. *)
Inductive Op : Type :=
| Find (q : Query)
| Create (p : PlayerRecord)
| FindOneAndUpdate (q : Query) (b : bool).

End Store.
Export Store.

(** ** The collaborators and the handler monad *)

Module Env.

(** The parsed token of the OAuth provider's answer. *)
Record Token : Type := mkToken { access_token : option string }.

(** The body of [GET /api/account]. *)
Record Account : Type := mkAccount { id : string; username : string }.

(** What can go wrong with the body of [GET /team/{id}/users]: a line
    that is no JSON, or the connection breaking off. *)
Inductive Failure : Type :=
| ParseError (err : string)
| BodyError (err : string).

(** The body of [GET /team/{id}/users] as a stream: the ids of the
    member objects on its well-formed lines, and what ends them, the
    end of the body ([None]) or a failure. *)
Record Stream : Type := mkStream {
  members : list string;
  failure : option Failure
}.

(** Everything outside the handlers, for the configured team: what
    each remote call answers, what the schema's cast to [Number] makes
    of a string ([null], a number, or a cast error), and whether a
    database operation goes through. *)
Record World : Type := mkWorld {
  LICHESS_TEAM_ADMIN : option string;
  toLocaleUpperCase_tr : string -> string;
  createClientAsync : Res unit;
  TCKimlikNoDogrulaAsync : string -> string -> string -> string -> Res Val;
  team_users : option string -> Res Stream;
  team_kick : string -> option string -> Res Val;
  team_join : option string -> Res Val;
  getToken : option string -> Res (option Token);
  castNumber : string -> Res (option float);
  db_ok : Op -> bool
}.

(** A call that left the process. *)
Inductive Event : Type :=
| ESoapClient
| ESoapVerify (TCKimlikNo Ad Soyad DogumYili : string)
| ETeamUsers (authToken : option string)
| ETeamKick (user : string) (authToken : option string)
| ETeamJoin (authToken : option string)
| EAccount
| EGetToken (code : option string)
| EDb (op : Op).

Definition is_remote (e : Event) : bool :=
  match e with EDb _ => false | _ => true end.

(** [req.session]. *)
Record Session : Type := mkSession {
  s_userId : option string;
  s_userName : option string;
  s_authToken : option string;
  s_returnUrl : option string
}.

(** What a request can change: the collection, the session, and the
    log of calls issued, oldest first. *)
Record St : Type := mkSt {
  store : list PlayerRecord;
  session : Session;
  log : list Event
}.

(** How an awaited computation comes out: its promise settles, with a
    value or an exception, or it stays pending for ever. *)
Inductive Out (A : Type) : Type :=
| Settled (r : Res A)
| Pending.
Arguments Settled {A} r.
Arguments Pending {A}.

Coercion Settled : Res >-> Out.
Arguments pair {A B} & a b.

Definition M (A : Type) : Type := St -> Out A * St.

Definition ret {A} (a : A) : M A := fun st => (Ok a, st).

Definition bind {A B} (m : M A) (k : A -> M B) : M B :=
  fun st =>
    match m st with
    | (Settled (Ok a), st') => k a st'
    | (Settled (Throw e), st') => (Throw e, st')
    | (Pending, st') => (Pending, st')
    end.

Definition throw {A} (e : string) : M A := fun st => (Throw e, st).

(** A promise nobody resolves or rejects. *)
Definition pending {A} : M A := fun st => (Pending, st).

(** [try { m } catch (err) { h err }]: what [m] did before it threw
    stays done; while [m] is pending the handler is not reached. *)
Definition try_catch {A} (m : M A) (h : string -> M A) : M A :=
  fun st =>
    match m st with
    | (Settled (Ok a), st') => (Ok a, st')
    | (Settled (Throw e), st') => h e st'
    | (Pending, st') => (Pending, st')
    end.

(** [await Promise.all([m1, m2])]: both are started, [m1] first;
    the result is the pair when both fulfil and a rejection as soon as
    one rejects.  A rejection of one does not stop the other. *)
Definition all2 {A B} (m1 : M A) (m2 : M B) : M (A * B) :=
  fun st =>
    let (r1, st1) := m1 st in
    let (r2, st2) := m2 st1 in
    match r1, r2 with
    | Settled (Ok a), Settled (Ok b) => (Ok (a, b), st2)
    | Settled (Throw e), _ => (Throw e, st2)
    | _, Settled (Throw e) => (Throw e, st2)
    | _, _ => (Pending, st2)
    end.

Definition emit (e : Event) : M unit :=
  fun st => (Ok tt, mkSt (store st) (session st) (log st ++ [e])).

Definition lift {A} (r : Res A) : M A := fun st => (Settled r, st).

Definition get_session : M Session := fun st => (Ok (session st), st).

Definition put_session (s : Session) : M unit :=
  fun st => (Ok tt, mkSt (store st) s (log st)).

Definition get_store : M (list PlayerRecord) :=
  fun st => (Ok (store st), st).

Definition put_store (l : list PlayerRecord) : M unit :=
  fun st => (Ok tt, mkSt l (session st) (log st)).

End Env.
Export Env.

Declare Scope js_scope.
Delimit Scope js_scope with js.
Notation "x <- m ;; k" := (bind m (fun x => k))
  (at level 61, m at next level, right associativity) : js_scope.
Notation "m ;; k" := (bind m (fun _ => k))
  (at level 61, right associativity) : js_scope.
Notation "'try' m 'catch' h" := (try_catch m h)
  (at level 62, m at level 61, h at level 9) : js_scope.

(** ** The handlers of src/index.js *)

Section Handlers.
Local Open Scope js_scope.

Variable w : World.

(** *** The [Player] model *)

Definition db (op : Op) : M unit :=
  emit (EDb op) ;;
  if db_ok w op then ret tt else throw "MongoError".

Definition Player_find (q : Query) : M (list PlayerRecord) :=
  db (Find q) ;;
  l <- get_store ;;
  ret (filter (matches q) l).

(** The object handed to [Player.create]: the paths as the handler
    fills them, the year still the text of the form. *)
Record Doc : Type := mkDoc {
  d_userId : string;
  d_userName : option string;
  d_firstName : string;
  d_lastName : string;
  d_birthYear : string;
  d_govId : string;
  d_govIdSignature : string;
  d_banned : bool
}.

(** The document with its year cast to the schema type. *)
Definition cast_doc (d : Doc) (y : option float) : PlayerRecord :=
  mkPlayer (d_userId d) (d_userName d) (d_firstName d) (d_lastName d)
           y (d_govId d) (d_govIdSignature d) (d_banned d).

(** [Player.create]: the document is cast and validated first; a year
    that is no number rejects before anything is sent to the
    database. *)
Definition Player_create (d : Doc) : M unit :=
  y <- lift (castNumber w (d_birthYear d)) ;;
  let p := cast_doc d y in
  db (Create p) ;;
  l <- get_store ;;
  put_store (l ++ [p]).

Definition Player_findOneAndUpdate (q : Query) (b : bool)
  : M (option PlayerRecord) :=
  db (FindOneAndUpdate q b) ;;
  l <- get_store ;;
  put_store (update_first q b l) ;;
  ret (find (matches q) l).

(** *** Remote calls *)

(** How a stream of parsed objects goes on: it ends, it emits an
    error, or it stays open without either. *)
Inductive Ending : Type :=
| Ended
| Failed (err : string)
| Open.

Record Parsed : Type := mkParsed {
  users : list string;
  ending : Ending
}.

(** [data.pipe(ndjson.parse())]: the parser emits the objects of the
    lines it gets; it ends when the body ends and emits an error on a
    line that is no JSON.  [pipe] does not hand an error of the body on
    to the parser, which then neither ends nor fails. *)
Definition pipe_ndjson (data : Stream) : Parsed :=
  mkParsed (members data)
           match failure data with
           | None => Ended
           | Some (ParseError err) => Failed err
           | Some (BodyError _) => Open
           end.

Definition getUserIds (stream : Parsed) : M (list string) :=
  match ending stream with
  | Ended => ret (users stream)
  | Failed err => throw err
  | Open => pending
  end.

Definition getTeamMembers (authToken : option string) : M (list string) :=
  emit (ETeamUsers authToken) ;;
  data <- lift (team_users w authToken) ;;
  getUserIds (pipe_ndjson data).

Definition verifyUserGovId (id firstName lastName birthYear : string)
  : M Val :=
  emit ESoapClient ;;
  lift (createClientAsync w) ;;
  let Ad := toLocaleUpperCase_tr w firstName in
  let Soyad := toLocaleUpperCase_tr w lastName in
  emit (ESoapVerify id Ad Soyad birthYear) ;;
  lift (TCKimlikNoDogrulaAsync w id Ad Soyad birthYear).

Definition kickTeamMember (userId : string) (authToken : option string)
  : M Val :=
  emit (ETeamKick userId authToken) ;;
  lift (team_kick w userId authToken).

Definition joinTeam (authToken : option string) : M Val :=
  emit (ETeamJoin authToken) ;;
  lift (team_join w authToken).

(** The identifiers a function body of the module can resolve: the
    module's own bindings, the module wrapper's and the globals the
    file uses. *)
Definition module_scope : list string :=
  [ "APP_PORT"; "LICHESS_CLIENT_ID"; "LICHESS_CLIENT_SECRET"; "GOV_WSDL";
    "SESSION_SECRET"; "MONGODB_URL"; "LICHESS_TEAM_ID"; "LICHESS_TEAM_ADMIN";
    "express"; "oauth"; "axios"; "crypto"; "soap"; "session"; "MongoStore";
    "ndjson"; "twig"; "api"; "mongoose"; "playerSchema"; "Player"; "scopes";
    "oauth2"; "app"; "getUserIds"; "getTeamMembers"; "verifyUserGovId";
    "kickTeamMember"; "joinTeam"; "getUserInfo";
    "require"; "module"; "exports"; "__filename"; "__dirname";
    "process"; "console"; "Promise"; "Date"; "Error" ].

Definition resolve (scope : list string) (x : string) : M unit :=
  if existsb (String.eqb x) scope then ret tt
  else throw ("ReferenceError: " ++ x ++ " is not defined").

(** The body reads [token.access_token], and [token] is no parameter
    of the function; it destructures [data] from the promise of
    [api.get] without awaiting it. *)
Definition getUserInfo (authToken : option string) : M (option Account) :=
  resolve ("authToken" :: module_scope) "token" ;;
  emit EAccount ;;
  ret None.

(** *** Responses *)

Inductive Response : Type :=
| Redirect (status : nat) (url : string)
| Render (view : string) (players : list PlayerRecord).

(** [!userId] is false exactly for a non-empty string. *)
Definition authenticated (s : Session) : option string :=
  if truthy_str (s_userId s) then s_userId s else None.

(** [adminId !== LICHESS_TEAM_ADMIN], negated. *)
Definition is_admin (adminId : string) : bool :=
  match LICHESS_TEAM_ADMIN w with
  | Some a => adminId =? a
  | None => false
  end.

(** *** [GET /callback] *)

Definition callback (code : option string) : M Response :=
  sess <- get_session ;;
  let returnUrl := or_default (s_returnUrl sess) "/" in
  try (
    emit (EGetToken code) ;;
    result <- lift (getToken w code) ;;
    match result with
    | None => throw "Token not exists"
    | Some token =>
        (* token.access is no property of the token *)
        info <- getUserInfo None ;;
        match info with
        | None => throw "TypeError: Cannot destructure property 'id'"
        | Some acc =>
            put_session (mkSession (Some (id acc)) (Some (username acc))
                                   (access_token token) (s_returnUrl sess)) ;;
            ret (Redirect 303 returnUrl)
        end
    end
  ) catch (fun err => ret (Redirect 303 "/")).

(** *** [POST /verify/gov] *)

(** The form fields of [req.body], each the text the form sent. *)
Record VerifyBody : Type := mkBody {
  b_id : string;
  b_name : string;
  b_surname : string;
  b_year : string
}.

(** The object literal of the two [Player.create] calls. *)
Definition new_doc (userId : string) (sess : Session) (body : VerifyBody)
           (idSig : string) (banned : bool) : Doc :=
  mkDoc userId (s_userName sess) (b_name body) (b_surname body)
        (b_year body) (Mask.mask (b_id body)) idSig banned.

(** The record it becomes when the year casts to [y]. *)
Definition new_player (userId : string) (sess : Session) (body : VerifyBody)
           (y : option float) (idSig : string) (banned : bool)
  : PlayerRecord :=
  cast_doc (new_doc userId sess body idSig banned) y.

Definition post_verify_gov (body : VerifyBody) : M Response :=
  sess <- get_session ;;
  match authenticated sess with
  | None => ret (Redirect 303 "/auth?returnUrl=/verify/gov")
  | Some userId =>
      try (
        status <- verifyUserGovId (b_id body) (b_name body)
                                  (b_surname body) (b_year body) ;;
        if negb (truthy status) then ret (Redirect 303 "/verify/gov")
        else
          let idSig := Sha1.sha1_hex (b_id body) in
          bannedPlayers <- Player_find
                             (mkQuery None (Some idSig) (Some true)) ;;
          if (0 <? List.length bannedPlayers)%nat then
            (if negb (existsb (fun bannedPlayer =>
                                 Store.userId bannedPlayer =? userId)
                              bannedPlayers)
             then Player_create (new_doc userId sess body idSig true)
             else ret tt) ;;
            ret (Redirect 303 "/messages/banned")
          else
            ok <- joinTeam (s_authToken sess) ;;
            if negb (truthy ok) then ret (Redirect 303 "/messages/error")
            else
              Player_create (new_doc userId sess body idSig false) ;;
              ret (Redirect 303 "/messages/success")
      ) catch (fun err => ret (Redirect 303 "/messages/error"))
  end.

(** *** [GET /players/:playerType(waiting|verified)] *)

Inductive PlayerType : Type := waiting | verified.

Definition type_name (t : PlayerType) : string :=
  match t with waiting => "waiting" | verified => "verified" end.

Definition roster_cond (t : PlayerType) (userIds : list string) : UserCond :=
  match t with waiting => UNin userIds | verified => UIn userIds end.

Definition get_players (playerType : PlayerType) : M Response :=
  sess <- get_session ;;
  match authenticated sess with
  | None =>
      ret (Redirect 303 ("/auth?returnUrl=/players/" ++ type_name playerType))
  | Some adminId =>
      if negb (is_admin adminId) then ret (Redirect 303 "/")
      else
        try (
          userIds <- getTeamMembers (s_authToken sess) ;;
          players <- Player_find
                       (mkQuery (Some (roster_cond playerType userIds))
                                None (Some false)) ;;
          ret (Render ("players/" ++ type_name playerType ++ ".html.twig")
                      players)
        ) catch (fun err => ret (Redirect 303 "/messages/error"))
  end.

(** *** [GET /players/banned] *)

Definition get_players_banned : M Response :=
  sess <- get_session ;;
  match authenticated sess with
  | None => ret (Redirect 303 "/auth?returnUrl=/players/banned")
  | Some adminId =>
      if negb (is_admin adminId) then ret (Redirect 303 "/")
      else
        try (
          players <- Player_find (mkQuery None None (Some true)) ;;
          ret (Render "players/banned.html.twig" players)
        ) catch (fun err => ret (Redirect 303 "/messages/error"))
  end.

(** *** [POST /players/ban] *)

Definition post_players_ban (user : string) : M Response :=
  sess <- get_session ;;
  match authenticated sess with
  | None => ret (Redirect 303 "/auth?returnUrl=/players/verified")
  | Some adminId =>
      if negb (is_admin adminId) then ret (Redirect 303 "/")
      else
        try (
          all2 (kickTeamMember user (s_authToken sess))
               (Player_findOneAndUpdate
                  (mkQuery (Some (UEq user)) None None) true) ;;
          ret (Redirect 303 "/players/verified")
        ) catch (fun err => ret (Redirect 303 "/messages/error"))
  end.

(** *** [POST /players/unban] *)

Definition post_players_unban (user : string) : M Response :=
  sess <- get_session ;;
  match authenticated sess with
  | None => ret (Redirect 303 "/auth?returnUrl=/players/banned")
  | Some adminId =>
      if negb (is_admin adminId) then ret (Redirect 303 "/")
      else
        try (
          Player_findOneAndUpdate
            (mkQuery (Some (UEq user)) None None) false ;;
          ret (Redirect 303 "/players/verified")
        ) catch (fun err => ret (Redirect 303 "/messages/error"))
  end.

End Handlers.

(** ** The page handlers *)

Section Pages.
Local Open Scope js_scope.

Variable w : World.

(** [Player.findOne]: the find command with a limit of one, which
    gives the first matching document in collection order, or [null]. *)
Definition Player_findOne (q : Query) : M (option PlayerRecord) :=
  db w (Find q) ;;
  l <- get_store ;;
  ret (find (matches q) l).

(** What [res.render] and [res.redirect] send for the pages that list
    no players. *)
Inductive Page : Type :=
| Answer (r : Response)
| View (view : string)
| Form (view : string) (year : Z).

(** *** [GET /] *)

Definition get_index : Page := View "index/index.html.twig".

(** *** [GET /messages/:messageType]; [res.redirect] without a status
    sends 302. *)

Definition get_messages (messageType : string) : Page :=
  if negb (existsb (String.eqb messageType) ["success"; "banned"; "error"])
  then Answer (Redirect 302 "/")
  else View ("messages/" ++ messageType ++ ".html.twig").

(** *** [GET /verify/gov]; [fullYear] is [new Date().getFullYear()]. *)

Definition get_verify_gov (fullYear : Z) : M Page :=
  sess <- get_session ;;
  match authenticated sess with
  | None => ret (Answer (Redirect 303 "/auth?returnUrl=/verify/gov"))
  | Some userId =>
      try (
        player <- Player_findOne (mkQuery (Some (UEq userId)) None None) ;;
        match player with
        | None => ret (Form "verify/gov.html.twig" (fullYear - 7))
        | Some player =>
            if banned player
            then ret (Answer (Redirect 303 "/messages/banned"))
            else
              ok <- joinTeam w (s_authToken sess) ;;
              if truthy ok
              then ret (Answer (Redirect 303 "/messages/success"))
              else ret (Answer (Redirect 303 "/messages/error"))
        end
      ) catch (fun err => ret (Answer (Redirect 303 "/messages/error")))
  end.

End Pages.

Local Open Scope list_scope.

(** ** Definitions the statements use *)

(** The answer of the identity service to a submission, and the calls
    that obtaining it issues. *)
Definition gov_answer (w : World) (body : VerifyBody) : Res Val :=
  match createClientAsync w with
  | Ok _ =>
      TCKimlikNoDogrulaAsync w (b_id body)
        (toLocaleUpperCase_tr w (b_name body))
        (toLocaleUpperCase_tr w (b_surname body)) (b_year body)
  | Throw e => Throw e
  end.

Definition gov_events (w : World) (body : VerifyBody) : list Event :=
  match createClientAsync w with
  | Ok _ =>
      [ESoapClient;
       ESoapVerify (b_id body) (toLocaleUpperCase_tr w (b_name body))
                   (toLocaleUpperCase_tr w (b_surname body)) (b_year body)]
  | Throw _ => [ESoapClient]
  end.

(** A submission with a year that is no number. *)
Definition body_abc : VerifyBody := mkBody "12345678" "ADA" "LOVELACE" "abc".

(** The claim on the successful submission as the specification words
    it, for every submitted year. *)
Definition success_as_claimed : Prop :=
  forall (w : World) (st : St) (body : VerifyBody) (uid : string)
         (status ok : Val),
    authenticated (session st) = Some uid ->
    gov_answer w body = Ok status ->
    truthy status = true ->
    (forall p, In p (store st) -> banned p = true ->
               govIdSignature p <> Sha1.sha1_hex (b_id body)) ->
    team_join w (s_authToken (session st)) = Ok ok ->
    truthy ok = true ->
    (forall op, db_ok w op = true) ->
    exists r st',
      post_verify_gov w body st = (Ok (Redirect 303 "/messages/success"), st')
      /\ store st' = store st ++ [r]
      /\ banned r = false
      /\ userId r = uid
      /\ userName r = s_userName (session st)
      /\ firstName r = b_name body
      /\ lastName r = b_surname body.

(** The claim on the submission of a banned identity as the
    specification words it, for every submitted year. *)
Definition alias_ban_as_claimed : Prop :=
  forall (w : World) (st : St) (body : VerifyBody) (uid : string)
         (status : Val),
    authenticated (session st) = Some uid ->
    gov_answer w body = Ok status ->
    truthy status = true ->
    (exists p, In p (store st) /\ banned p = true
               /\ govIdSignature p = Sha1.sha1_hex (b_id body)) ->
    (forall op, db_ok w op = true) ->
    ((forall p, In p (store st) -> banned p = true ->
                govIdSignature p = Sha1.sha1_hex (b_id body) ->
                userId p <> uid) ->
     exists r st',
       post_verify_gov w body st = (Ok (Redirect 303 "/messages/banned"), st')
       /\ store st' = store st ++ [r]
       /\ banned r = true
       /\ userId r = uid
       /\ govIdSignature r = Sha1.sha1_hex (b_id body))
    /\
    ((exists p, In p (store st) /\ banned p = true
                /\ govIdSignature p = Sha1.sha1_hex (b_id body)
                /\ userId p = uid) ->
     exists st',
       post_verify_gov w body st = (Ok (Redirect 303 "/messages/banned"), st')
       /\ store st' = store st).

(** [{govIdSignature: idSig, banned: true}]. *)
Definition sig_query (idSig : string) : Query :=
  mkQuery None (Some idSig) (Some true).

(** An id made of digits only. *)
Definition all_digits (s : string) : bool :=
  forallb Mask.is_digit (list_ascii_of_string s).

(** Modelled on the words of the specification: a waiting player is a
    stored player that is not banned and whose user id is absent from
    the roster; a verified player is one that is not banned and whose
    user id is in the roster. *)
Definition listed (t : PlayerType) (roster : list string) (p : PlayerRecord)
  : Prop :=
  banned p = false
  /\ match t with
     | waiting => ~ In (userId p) roster
     | verified => In (userId p) roster
     end.

(** The same, as a test. *)
Definition listedb (t : PlayerType) (roster : list string) (p : PlayerRecord)
  : bool :=
  negb (banned p)
  && match t with
     | waiting => negb (mem (userId p) roster)
     | verified => mem (userId p) roster
     end.

(** [{userId}] with the user of the request body. *)
Definition user_query (user : string) : Query :=
  mkQuery (Some (UEq user)) None None.

(** The claim on the ban action as the specification words it: the
    redirect to the verified list follows whatever the two operations
    come to. *)
Definition ban_redirect_unconditional : Prop :=
  forall (w : World) (st : St) (uid user : string),
    authenticated (session st) = Some uid ->
    LICHESS_TEAM_ADMIN w = Some uid ->
    fst (post_players_ban w user st) = Ok (Redirect 303 "/players/verified").

(** ** Sample worlds, stores and submissions *)

Module Sample.

(** The sample names are in upper case already. *)
Definition upper (s : string) : string := s.

(** A cast for the samples: the empty string is [null], a string of
    decimal digits is its number (exactly, up to fifteen digits), and
    every other string is refused, as the schema refuses ["abc"]. *)
Definition digit_float (c : ascii) : option float :=
  match c with
  | "0"%char => Some 0%float
  | "1"%char => Some 1%float
  | "2"%char => Some 2%float
  | "3"%char => Some 3%float
  | "4"%char => Some 4%float
  | "5"%char => Some 5%float
  | "6"%char => Some 6%float
  | "7"%char => Some 7%float
  | "8"%char => Some 8%float
  | "9"%char => Some 9%float
  | _ => None
  end.

Fixpoint digits_float (acc : float) (s : string) : option float :=
  match s with
  | EmptyString => Some acc
  | String c rest =>
      match digit_float c with
      | Some d => digits_float (acc * 10 + d)%float rest
      | None => None
      end
  end.

Definition cast_year (s : string) : Res (option float) :=
  if s =? "" then Ok None
  else match digits_float 0%float s with
       | Some y => Ok (Some y)
       | None => Throw "CastError"
       end.

(** Every service answers and accepts. *)
Definition calm : World :=
  mkWorld (Some "boss") upper (Ok tt)
          (fun _ _ _ _ => Ok (Boolean true))
          (fun _ => Ok (mkStream ["ann"; "bob"] None))
          (fun _ _ => Ok (Boolean true))
          (fun _ => Ok (Boolean true))
          (fun _ => Ok (Some (mkToken (Some "tok"))))
          cast_year
          (fun _ => true).

Definition player (u sig : string) (b : bool) : PlayerRecord :=
  mkPlayer u (Some u) "ADA" "LOVELACE" (Some 1990%float) "123*****" sig b.

Definition user_session (u : string) : Session :=
  mkSession (Some u) (Some u) (Some "tok") None.

Definition state_of (l : list PlayerRecord) (u : string) : St :=
  mkSt l (user_session u) [].

Definition body8 : VerifyBody := mkBody "12345678" "ADA" "LOVELACE" "1990".

Definition body7 : VerifyBody := mkBody "1234567" "ADA" "LOVELACE" "1990".
Definition body11 : VerifyBody :=
  mkBody "12345678901" "ADA" "LOVELACE" "1990".

End Sample.

(** The SHA-1 digest of the sample id 12345678. *)
Definition sig8 : string := "7c222fb2927d828af22f592134e8932480637c0d".

(** The identity service rejects every submission. *)
Definition strict : World :=
  mkWorld (Some "boss") Sample.upper (Ok tt)
          (fun _ _ _ _ => Ok (Boolean false))
          (fun _ => Ok (mkStream ["ann"; "bob"] None))
          (fun _ _ => Ok (Boolean true))
          (fun _ => Ok (Boolean true))
          (fun _ => Ok (Some (mkToken (Some "tok"))))
          Sample.cast_year
          (fun _ => true).

(** The platform refuses the kick: the HTTP client rejects. *)
Definition kick_refused : World :=
  mkWorld (Some "boss") Sample.upper (Ok tt)
          (fun _ _ _ _ => Ok (Boolean true))
          (fun _ => Ok (mkStream ["ann"; "bob"] None))
          (fun _ _ => Throw "Request failed with status code 401")
          (fun _ => Ok (Boolean true))
          (fun _ => Ok (Some (mkToken (Some "tok"))))
          Sample.cast_year
          (fun _ => true).

(** Records of other people: one banned under another signature, one
    with the sample signature and not banned. *)
Definition others : list PlayerRecord :=
  [Sample.player "zed" "feed" true; Sample.player "cy" sig8 false].

(** Two players that are not banned, one of them on the roster, and
    two banned ones. *)
Definition roster_store : list PlayerRecord :=
  [Sample.player "ann" "s1" false; Sample.player "cy" "s2" false;
   Sample.player "dan" "s3" true; Sample.player "bob" "s4" true].

(** Eight digits in a row, from index [i] on. *)
Definition digit_run (id : string) (i : nat) : Prop :=
  forall j, i <= j < i + 8 ->
    exists c, get j id = Some c /\ Mask.is_digit c = true.

(** The next request on the same store comes with its own session. *)
Definition with_session (st : St) (s : Session) : St :=
  mkSt (store st) s (log st).

(** The platform answers the join with [ok: false]. *)
Definition join_refusing : World :=
  mkWorld (Some "boss") Sample.upper (Ok tt)
          (fun _ _ _ _ => Ok (Boolean true))
          (fun _ => Ok (mkStream ["ann"; "bob"] None))
          (fun _ _ => Ok (Boolean true))
          (fun _ => Ok (Boolean false))
          (fun _ => Ok (Some (mkToken (Some "tok"))))
          Sample.cast_year
          (fun _ => true).

(** The body of the roster request breaks off after the first member. *)
Definition roster_broken : World :=
  mkWorld (Some "boss") Sample.upper (Ok tt)
          (fun _ _ _ _ => Ok (Boolean true))
          (fun _ => Ok (mkStream ["ann"] (Some (BodyError "aborted"))))
          (fun _ _ => Ok (Boolean true))
          (fun _ => Ok (Boolean true))
          (fun _ => Ok (Some (mkToken (Some "tok"))))
          Sample.cast_year
          (fun _ => true).

(** The second line of the member stream is no JSON. *)
Definition roster_garbled : World :=
  mkWorld (Some "boss") Sample.upper (Ok tt)
          (fun _ _ _ _ => Ok (Boolean true))
          (fun _ => Ok (mkStream ["ann"]
                                 (Some (ParseError "Could not parse row"))))
          (fun _ _ => Ok (Boolean true))
          (fun _ => Ok (Boolean true))
          (fun _ => Ok (Some (mkToken (Some "tok"))))
          Sample.cast_year
          (fun _ => true).

(** A browser session that never signed in. *)
Definition anonymous : Session := mkSession None None None (Some "/verify/gov").

(** A store in which one user was recorded twice. *)
Definition twice_store : list PlayerRecord :=
  [Sample.player "cy" "s2" false; Sample.player "ann" sig8 false;
   Sample.player "ann" sig8 false].

(** The identity service cannot be reached. *)
Definition soap_down : World :=
  mkWorld (Some "boss") Sample.upper (Throw "ECONNREFUSED")
          (fun _ _ _ _ => Ok (Boolean true))
          (fun _ => Ok (mkStream ["ann"; "bob"] None))
          (fun _ _ => Ok (Boolean true))
          (fun _ => Ok (Boolean true))
          (fun _ => Ok (Some (mkToken (Some "tok"))))
          Sample.cast_year
          (fun _ => true).

(** The database answers queries and refuses to create. *)
Definition create_failing : World :=
  mkWorld (Some "boss") Sample.upper (Ok tt)
          (fun _ _ _ _ => Ok (Boolean true))
          (fun _ => Ok (mkStream ["ann"; "bob"] None))
          (fun _ _ => Ok (Boolean true))
          (fun _ => Ok (Boolean true))
          (fun _ => Ok (Some (mkToken (Some "tok"))))
          Sample.cast_year
          (fun op => match op with Create _ => false | _ => true end).

(** The database refuses everything. *)
Definition db_down : World :=
  mkWorld (Some "boss") Sample.upper (Ok tt)
          (fun _ _ _ _ => Ok (Boolean true))
          (fun _ => Ok (mkStream ["ann"; "bob"] None))
          (fun _ _ => Ok (Boolean true))
          (fun _ => Ok (Boolean true))
          (fun _ => Ok (Some (mkToken (Some "tok"))))
          Sample.cast_year
          (fun _ => false).

Arguments Sha1.sha1_hex : simpl never.
Arguments Mask.mask : simpl never.

(** ** Running the handlers *)

Lemma is_admin_spec (w : World) (uid : string) :
  is_admin w uid = true <-> LICHESS_TEAM_ADMIN w = Some uid.
Proof.
  unfold is_admin. destruct (LICHESS_TEAM_ADMIN w) as [ a | ].
  - rewrite String.eqb_eq. split; congruence.
  - split; discriminate.
Qed.

Lemma verifyUserGovId_run (w : World) body st :
  verifyUserGovId w (b_id body) (b_name body) (b_surname body) (b_year body) st
  = (gov_answer w body,
     mkSt (store st) (session st) (log st ++ gov_events w body)).
Proof.
  unfold verifyUserGovId, gov_answer, gov_events, bind, emit, lift; simpl.
  destruct (createClientAsync w); simpl; [ | reflexivity ].
  rewrite <- app_assoc. reflexivity.
Qed.

Lemma Player_find_run (w : World) q st :
  db_ok w (Find q) = true ->
  Player_find w q st
  = (Ok (filter (matches q) (store st)),
     mkSt (store st) (session st) (log st ++ [EDb (Find q)])).
Proof.
  intros Hdb. unfold Player_find, db, bind, emit, get_store, ret; simpl.
  rewrite Hdb. reflexivity.
Qed.

Lemma Player_find_down (w : World) q st :
  db_ok w (Find q) = false ->
  Player_find w q st
  = (Throw "MongoError",
     mkSt (store st) (session st) (log st ++ [EDb (Find q)])).
Proof.
  intros Hdb. unfold Player_find, db, bind, emit, get_store, ret; simpl.
  rewrite Hdb. reflexivity.
Qed.

Lemma Player_create_run (w : World) d y st :
  castNumber w (d_birthYear d) = Ok y ->
  db_ok w (Create (cast_doc d y)) = true ->
  Player_create w d st
  = (Ok tt,
     mkSt (store st ++ [cast_doc d y]) (session st)
          (log st ++ [EDb (Create (cast_doc d y))])).
Proof.
  intros Hcast Hdb.
  unfold Player_create, db, bind, emit, get_store, put_store, ret, lift.
  rewrite Hcast. simpl. rewrite Hdb. reflexivity.
Qed.

Lemma Player_create_down (w : World) d y st :
  castNumber w (d_birthYear d) = Ok y ->
  db_ok w (Create (cast_doc d y)) = false ->
  Player_create w d st
  = (Throw "MongoError",
     mkSt (store st) (session st)
          (log st ++ [EDb (Create (cast_doc d y))])).
Proof.
  intros Hcast Hdb.
  unfold Player_create, db, bind, emit, get_store, put_store, ret, lift.
  rewrite Hcast. simpl. rewrite Hdb. reflexivity.
Qed.

Lemma Player_create_uncast (w : World) d e st :
  castNumber w (d_birthYear d) = Throw e ->
  Player_create w d st = (Throw e, st).
Proof.
  intros Hcast. unfold Player_create, bind, lift. rewrite Hcast.
  reflexivity.
Qed.

Lemma Player_findOneAndUpdate_run (w : World) q b st :
  db_ok w (FindOneAndUpdate q b) = true ->
  Player_findOneAndUpdate w q b st
  = (Ok (find (matches q) (store st)),
     mkSt (update_first q b (store st)) (session st)
          (log st ++ [EDb (FindOneAndUpdate q b)])).
Proof.
  intros Hdb.
  unfold Player_findOneAndUpdate, db, bind, emit, get_store, put_store, ret.
  simpl. rewrite Hdb. reflexivity.
Qed.

Lemma Player_findOneAndUpdate_down (w : World) q b st :
  db_ok w (FindOneAndUpdate q b) = false ->
  Player_findOneAndUpdate w q b st
  = (Throw "MongoError",
     mkSt (store st) (session st) (log st ++ [EDb (FindOneAndUpdate q b)])).
Proof.
  intros Hdb.
  unfold Player_findOneAndUpdate, db, bind, emit, get_store, put_store, ret.
  simpl. rewrite Hdb. reflexivity.
Qed.

Lemma joinTeam_run (w : World) tok st :
  joinTeam w tok st
  = (team_join w tok,
     mkSt (store st) (session st) (log st ++ [ETeamJoin tok])).
Proof. reflexivity. Qed.

Lemma kickTeamMember_run (w : World) u tok st :
  kickTeamMember w u tok st
  = (team_kick w u tok,
     mkSt (store st) (session st) (log st ++ [ETeamKick u tok])).
Proof. reflexivity. Qed.

(** ** Signatures in the store *)

Lemma matches_sig_query idSig p :
  matches (sig_query idSig) p = true
  <-> govIdSignature p = idSig /\ banned p = true.
Proof.
  unfold matches, sig_query; simpl.
  rewrite andb_true_iff, String.eqb_eq.
  destruct (banned p); simpl; intuition congruence.
Qed.

Lemma no_banned_match idSig l :
  (forall p, In p l -> banned p = true -> govIdSignature p <> idSig) ->
  filter (matches (sig_query idSig)) l = [].
Proof.
  intros H. induction l as [ | p l IH ]; simpl; [ reflexivity | ].
  destruct (matches (sig_query idSig) p) eqn:E.
  - apply matches_sig_query in E. destruct E as [E1 E2].
    exfalso. apply (H p); [ left; reflexivity | assumption | assumption ].
  - apply IH. intros q Hq. apply H. right. exact Hq.
Qed.

(** C1, amended.  A submission by an authenticated session that the
    identity service accepts, whose signature no banned record carries,
    for which the team join answers ok, and whose year the schema casts
    to a number (or to null), appends exactly one record to the store,
    not banned, with the session's user id and user name, the submitted
    name and surname and the year as cast, and answers with a 303
    redirect to the success page. *)
Theorem verify_success_creates_record
  (w : World) (st : St) (body : VerifyBody) (uid : string) (status ok : Val)
  (y : option float) :
  authenticated (session st) = Some uid ->
  gov_answer w body = Ok status ->
  truthy status = true ->
  (forall p, In p (store st) -> banned p = true ->
             govIdSignature p <> Sha1.sha1_hex (b_id body)) ->
  team_join w (s_authToken (session st)) = Ok ok ->
  truthy ok = true ->
  castNumber w (b_year body) = Ok y ->
  (forall op, db_ok w op = true) ->
  exists r st',
    post_verify_gov w body st = (Ok (Redirect 303 "/messages/success"), st')
    /\ store st' = store st ++ [r]
    /\ session st' = session st
    /\ banned r = false
    /\ userId r = uid
    /\ userName r = s_userName (session st)
    /\ firstName r = b_name body
    /\ lastName r = b_surname body
    /\ birthYear r = y.
Proof.
  intros Hauth Hgov Hst Hnone Hjoin Hok Hcast Hdb.
  set (idSig := Sha1.sha1_hex (b_id body)).
  exists (new_player uid (session st) body y idSig false).
  eexists. split.
  - unfold post_verify_gov, bind at 1, get_session. rewrite Hauth.
    unfold try_catch, bind at 1. rewrite verifyUserGovId_run, Hgov, Hst.
    cbn [negb]. unfold bind at 1.
    rewrite Player_find_run by apply Hdb.
    simpl. fold idSig. fold (sig_query idSig).
    rewrite (no_banned_match idSig (store st) Hnone). simpl.
    unfold bind at 1. rewrite joinTeam_run. simpl. rewrite Hjoin, Hok. simpl.
    unfold bind at 1.
    rewrite (Player_create_run w (new_doc uid (session st) body idSig false)
               y _ Hcast (Hdb _)).
    unfold ret. reflexivity.
  - simpl. repeat split; reflexivity.
Qed.

(** C1, counterexample.  With the identity service accepting, no banned
    record, the join answering ok and the database answering, a
    submission whose year is the text abc creates no record and ends on
    the error page: the schema refuses the year when the record is to be
    created, after the join was sent. *)
Lemma uncastable_year_blocks_success : ~ success_as_claimed.
Proof.
  intros H.
  destruct (H Sample.calm (Sample.state_of others "ann") body_abc "ann"
              (Boolean true) (Boolean true) eq_refl eq_refl eq_refl)
    as [r [st' [Hrun _]]].
  - intros p [ <- | [ <- | [] ] ] Hb E.
    + vm_compute in E. discriminate E.
    + discriminate Hb.
  - reflexivity.
  - reflexivity.
  - intros op. reflexivity.
  - vm_compute in Hrun. discriminate Hrun.
Qed.

Lemma banned_match_exists idSig l :
  filter (matches (sig_query idSig)) l <> []
  <-> exists p, In p l /\ banned p = true /\ govIdSignature p = idSig.
Proof.
  split.
  - destruct (filter (matches (sig_query idSig)) l) as [ | p rest ] eqn:E;
      [ congruence | intros _ ].
    assert (Hin : In p (filter (matches (sig_query idSig)) l))
      by (rewrite E; left; reflexivity).
    apply filter_In in Hin. destruct Hin as [Hin Hm].
    apply matches_sig_query in Hm. exists p. tauto.
  - intros [p [Hin [Hb Hs]]] E.
    assert (Hp : In p (filter (matches (sig_query idSig)) l)).
    { apply filter_In. split; [ exact Hin | ].
      apply matches_sig_query. tauto. }
    rewrite E in Hp. exact Hp.
Qed.

Lemma own_banned_match idSig uid l :
  existsb (fun bannedPlayer => userId bannedPlayer =? uid)%string
          (filter (matches (sig_query idSig)) l) = true
  <-> exists p, In p l /\ banned p = true /\ govIdSignature p = idSig
                /\ userId p = uid.
Proof.
  rewrite existsb_exists. split.
  - intros [p [Hin Hu]]. apply filter_In in Hin. destruct Hin as [Hin Hm].
    apply matches_sig_query in Hm. apply String.eqb_eq in Hu.
    exists p. tauto.
  - intros [p [Hin [Hb [Hs Hu]]]]. exists p. split.
    + apply filter_In. split; [ exact Hin | ].
      apply matches_sig_query. tauto.
    + apply String.eqb_eq. exact Hu.
Qed.

Lemma length_pos_nonempty {A} (l : list A) :
  l <> [] -> (0 <? List.length l)%nat = true.
Proof. destruct l; [ congruence | reflexivity ]. Qed.

(** C2, amended.  When the identity service accepts the submission and
    the signature of the submitted id is carried by at least one banned
    record: if none of these records belongs to the session's account
    and the schema casts the submitted year, one record with
    banned = true and the session's account id is appended and the
    answer is a redirect to the banned page; if one of them belongs to
    the session's account, the store stays as it is and the answer is
    the same redirect. *)
Theorem verify_banned_signature
  (w : World) (st : St) (body : VerifyBody) (uid : string) (status : Val)
  (y : option float) :
  authenticated (session st) = Some uid ->
  gov_answer w body = Ok status ->
  truthy status = true ->
  (exists p, In p (store st) /\ banned p = true
             /\ govIdSignature p = Sha1.sha1_hex (b_id body)) ->
  (forall op, db_ok w op = true) ->
  ((forall p, In p (store st) -> banned p = true ->
              govIdSignature p = Sha1.sha1_hex (b_id body) ->
              userId p <> uid) ->
   castNumber w (b_year body) = Ok y ->
   exists r st',
     post_verify_gov w body st = (Ok (Redirect 303 "/messages/banned"), st')
     /\ store st' = store st ++ [r]
     /\ banned r = true
     /\ userId r = uid
     /\ govIdSignature r = Sha1.sha1_hex (b_id body))
  /\
  ((exists p, In p (store st) /\ banned p = true
              /\ govIdSignature p = Sha1.sha1_hex (b_id body)
              /\ userId p = uid) ->
   exists st',
     post_verify_gov w body st = (Ok (Redirect 303 "/messages/banned"), st')
     /\ store st' = store st).
Proof.
  intros Hauth Hgov Hst Hsome Hdb.
  set (idSig := Sha1.sha1_hex (b_id body)) in *.
  apply banned_match_exists in Hsome.
  assert (Hrun :
    post_verify_gov w body st
    = (let st1 := mkSt (store st) (session st)
                       ((log st ++ gov_events w body)
                        ++ [EDb (Find (sig_query idSig))]) in
       if existsb (fun bannedPlayer => userId bannedPlayer =? uid)%string
                  (filter (matches (sig_query idSig)) (store st))
       then (Ok (Redirect 303 "/messages/banned"), st1)
       else try_catch
              (bind (Player_create w (new_doc uid (session st) body idSig true))
                    (fun _ => ret (Redirect 303 "/messages/banned")))
              (fun err => ret (Redirect 303 "/messages/error")) st1)).
  { unfold post_verify_gov, bind at 1, get_session. rewrite Hauth.
    unfold try_catch at 1, bind at 1. rewrite verifyUserGovId_run, Hgov, Hst.
    cbn [negb]. unfold bind at 1.
    rewrite Player_find_run by apply Hdb.
    cbn [store session log]. fold idSig. fold (sig_query idSig).
    rewrite (length_pos_nonempty _ Hsome). cbv zeta.
    destruct (existsb _ _); cbn [negb]; reflexivity. }
  split.
  - intros Hother Hcast.
    exists (new_player uid (session st) body y idSig true). eexists.
    assert (Hnot :
      existsb (fun bannedPlayer => userId bannedPlayer =? uid)%string
              (filter (matches (sig_query idSig)) (store st)) = false).
    { apply not_true_is_false. intros E. apply own_banned_match in E.
      destruct E as [p [Hin [Hb [Hs Hu]]]]. exact (Hother p Hin Hb Hs Hu). }
    split.
    { rewrite Hrun. cbv zeta. rewrite Hnot.
      unfold try_catch, bind at 1.
      rewrite (Player_create_run w (new_doc uid (session st) body idSig true)
                 y _ Hcast (Hdb _)).
      reflexivity. }
    simpl. repeat split; reflexivity.
  - intros Hown. eexists.
    split.
    { rewrite Hrun. cbv zeta.
      rewrite (proj2 (own_banned_match idSig uid (store st)) Hown).
      reflexivity. }
    reflexivity.
Qed.

(** C2, counterexample.  With the id banned under another account, the
    identity service accepting and the database answering, a submission
    whose year is the text abc appends no record and ends on the error
    page, not on the banned page: the schema refuses the year when the
    banned record is to be created. *)
Lemma uncastable_year_blocks_alias_ban : ~ alias_ban_as_claimed.
Proof.
  intros H.
  destruct (H Sample.calm
              (Sample.state_of [Sample.player "zed" sig8 true] "ann")
              body_abc "ann" (Boolean true) eq_refl eq_refl eq_refl)
    as [Hnew _].
  - exists (Sample.player "zed" sig8 true).
    split; [ left; reflexivity | split; [ reflexivity | ] ].
    vm_compute. reflexivity.
  - intros op. reflexivity.
  - destruct Hnew as [r [st' [Hrun _]]].
    + intros p [ <- | [] ] _ _ E. discriminate E.
    + vm_compute in Hrun. discriminate Hrun.
Qed.

(** C9. When the identity service answers with a falsy status, the
    handler redirects back to the verification form; the store is
    unchanged and no database operation is issued. *)
Theorem verify_rejected_writes_nothing
  (w : World) (st : St) (body : VerifyBody) (uid : string) (status : Val) :
  authenticated (session st) = Some uid ->
  gov_answer w body = Ok status ->
  truthy status = false ->
  post_verify_gov w body st
  = (Ok (Redirect 303 "/verify/gov"),
     mkSt (store st) (session st) (log st ++ gov_events w body))
  /\ (forall op, ~ In (EDb op) (gov_events w body)).
Proof.
  intros Hauth Hgov Hst. split.
  - unfold post_verify_gov, bind at 1, get_session. rewrite Hauth.
    unfold try_catch, bind at 1. rewrite verifyUserGovId_run, Hgov, Hst.
    reflexivity.
  - intros op. unfold gov_events.
    destruct (createClientAsync w); simpl; intuition discriminate.
Qed.

(** C8. On each admin route, a session that is authenticated but whose
    user id is not the configured administrator id gets a 303 redirect
    to the home page, and nothing is sent to the store or to a remote
    service: the state, with its log of calls, is the one before. *)
Theorem admin_routes_reject_others
  (w : World) (st : St) (uid user : string) (t : PlayerType) :
  authenticated (session st) = Some uid ->
  LICHESS_TEAM_ADMIN w <> Some uid ->
  get_players w t st = (Ok (Redirect 303 "/"), st)
  /\ get_players_banned w st = (Ok (Redirect 303 "/"), st)
  /\ post_players_ban w user st = (Ok (Redirect 303 "/"), st)
  /\ post_players_unban w user st = (Ok (Redirect 303 "/"), st).
Proof.
  intros Hauth Hadm.
  assert (Hno : is_admin w uid = false).
  { apply not_true_is_false. intros E. apply Hadm, is_admin_spec, E. }
  clear Hadm. rename Hno into Hadm.
  unfold get_players, get_players_banned, post_players_ban,
    post_players_unban, bind, get_session.
  rewrite Hauth, Hadm. simpl. repeat split; reflexivity.
Qed.

(** ** Strings as lists of code units *)

Lemma length_string_of_list_ascii (l : list ascii) :
  String.length (string_of_list_ascii l) = List.length l.
Proof. induction l; simpl; congruence. Qed.

Lemma length_list_ascii_of_string (s : string) :
  List.length (list_ascii_of_string s) = String.length s.
Proof. induction s; simpl; congruence. Qed.

Lemma string_of_list_ascii_app (l1 l2 : list ascii) :
  string_of_list_ascii (l1 ++ l2)
  = (string_of_list_ascii l1 ++ string_of_list_ascii l2)%string.
Proof. induction l1; simpl; congruence. Qed.

Lemma substring_chars (s : string) :
  forall i n,
    string_of_list_ascii (firstn n (skipn i (list_ascii_of_string s)))
    = substring i n s.
Proof.
  induction s as [ | c s IH ]; intros i n.
  - destruct i, n; reflexivity.
  - destruct i as [ | i ].
    + destruct n as [ | n ]; simpl; [ reflexivity | ].
      f_equal. apply (IH 0 n).
    + simpl. apply IH.
Qed.

Lemma skipn_chars (s : string) (i : nat) :
  string_of_list_ascii (skipn i (list_ascii_of_string s))
  = substring i (String.length s - i) s.
Proof.
  rewrite <- substring_chars. f_equal.
  symmetry. apply firstn_all2.
  rewrite length_skipn, length_list_ascii_of_string. lia.
Qed.

(** ** The masking replacement on runs of digits *)

Lemma exec_digits (l : list ascii) :
  forallb Mask.is_digit l = true ->
  8 <= List.length l ->
  Mask.exec l = Some 3.
Proof.
  intros Hd Hlen.
  destruct l as [ | c0 [ | c1 [ | c2 [ | c3 [ | c4 [ | c5 [ | c6 [ | c7 rest ]]]]]]]];
    simpl in Hlen; try lia.
  simpl in Hd. repeat (apply andb_true_iff in Hd; destruct Hd as [? Hd]).
  unfold Mask.exec. cbn [List.length seq find].
  unfold Mask.match_at at 1, Mask.lookbehind at 1. cbn [Nat.leb andb].
  unfold Mask.match_at at 1, Mask.lookbehind at 1. cbn [Nat.leb andb].
  unfold Mask.match_at at 1, Mask.lookbehind at 1. cbn [Nat.leb andb].
  unfold Mask.match_at at 1, Mask.lookbehind, Mask.digits_at.
  cbn [Nat.leb Nat.sub skipn firstn List.length Nat.eqb forallb andb].
  repeat match goal with H : Mask.is_digit _ = true |- _ => rewrite H; clear H end.
  reflexivity.
Qed.

Lemma mask_digits (id : string) :
  all_digits id = true ->
  8 <= String.length id ->
  Mask.mask id
  = (substring 0 3 id ++ "*****"
       ++ substring 8 (String.length id - 8) id)%string.
Proof.
  intros Hd Hlen. unfold Mask.mask, Mask.replace.
  rewrite (exec_digits _ Hd)
    by (rewrite length_list_ascii_of_string; exact Hlen).
  rewrite !string_of_list_ascii_app.
  change (3 + 5) with 8.
  rewrite skipn_chars. rewrite <- (substring_chars id 0 3).
  reflexivity.
Qed.

Lemma mask_without_match (id : string) :
  Mask.exec (list_ascii_of_string id) = None -> Mask.mask id = id.
Proof.
  intros H. unfold Mask.mask, Mask.replace. rewrite H.
  apply string_of_list_ascii_of_string.
Qed.

(** ** The signature *)

Lemma hex32_length (x : Z) : List.length (Sha1.hex32 x) = 8.
Proof. reflexivity. Qed.

Lemma sha1_hex_length (s : string) : String.length (Sha1.sha1_hex s) = 40.
Proof.
  unfold Sha1.sha1_hex, Sha1.hex.
  rewrite length_string_of_list_ascii, !length_app, !hex32_length.
  reflexivity.
Qed.

(** ** What a submission can do to the store *)

Lemma post_verify_gov_store (w : World) (body : VerifyBody) (st : St) :
  store (snd (post_verify_gov w body st)) = store st
  \/ exists uid y b,
       store (snd (post_verify_gov w body st))
       = store st ++ [new_player uid (session st) body y
                                 (Sha1.sha1_hex (b_id body)) b].
Proof.
  remember (post_verify_gov w body st) as out eqn:Hout.
  unfold post_verify_gov, bind at 1, get_session in Hout.
  destruct (authenticated (session st)) as [ uid | ];
    [ | subst out; left; reflexivity ].
  unfold try_catch, bind at 1 in Hout. rewrite verifyUserGovId_run in Hout.
  destruct (gov_answer w body) as [ status | e ];
    [ | subst out; left; reflexivity ].
  destruct (truthy status); cbn [negb] in Hout;
    [ | subst out; left; reflexivity ].
  unfold bind at 1 in Hout.
  set (q := mkQuery None (Some (Sha1.sha1_hex (b_id body))) (Some true)) in *.
  destruct (db_ok w (Find q)) eqn:Hfind;
    [ rewrite Player_find_run in Hout by exact Hfind
    | rewrite Player_find_down in Hout by exact Hfind;
      subst out; left; reflexivity ].
  cbn [store session log] in Hout.
  destruct (0 <? List.length (filter (matches q) (store st)))%nat.
  - unfold bind at 1 in Hout.
    destruct (negb (existsb _ _)); [ | subst out; left; reflexivity ].
    set (d := new_doc uid (session st) body _ true) in *.
    destruct (castNumber w (d_birthYear d)) as [ y | e ] eqn:Hy;
      [ | rewrite (Player_create_uncast w d e _ Hy) in Hout;
          subst out; left; reflexivity ].
    destruct (db_ok w (Create (cast_doc d y))) eqn:Hc.
    + rewrite (Player_create_run w d y _ Hy Hc) in Hout. subst out.
      right. exists uid, y, true. reflexivity.
    + rewrite (Player_create_down w d y _ Hy Hc) in Hout. subst out.
      left. reflexivity.
  - unfold bind at 1 in Hout. rewrite joinTeam_run in Hout.
    destruct (team_join w _) as [ ok | e ];
      [ | subst out; left; reflexivity ].
    destruct (truthy ok); cbn [negb] in Hout;
      [ | subst out; left; reflexivity ].
    unfold bind at 1 in Hout.
    set (d := new_doc uid (session st) body _ false) in *.
    destruct (castNumber w (d_birthYear d)) as [ y | e ] eqn:Hy;
      [ | rewrite (Player_create_uncast w d e _ Hy) in Hout;
          subst out; left; reflexivity ].
    destruct (db_ok w (Create (cast_doc d y))) eqn:Hc.
    + rewrite (Player_create_run w d y _ Hy Hc) in Hout. subst out.
      right. exists uid, y, false. reflexivity.
    + rewrite (Player_create_down w d y _ Hy Hc) in Hout. subst out.
      left. reflexivity.
Qed.

Lemma created_record (w : World) (body : VerifyBody) (st : St)
      (p : PlayerRecord) :
  store (snd (post_verify_gov w body st)) = store st ++ [p] ->
  govId p = Mask.mask (b_id body)
  /\ govIdSignature p = Sha1.sha1_hex (b_id body).
Proof.
  intros H.
  destruct (post_verify_gov_store w body st) as [ E | [uid [y [b E]]] ];
    rewrite E in H.
  - apply (f_equal (@List.length _)) in H.
    rewrite length_app in H. simpl in H. lia.
  - apply app_inv_head in H. injection H as <-. split; reflexivity.
Qed.

Lemma substring_zero (s : string) : forall i, substring i 0 s = ""%string.
Proof.
  induction s as [ | c s IH ]; intros [ | i ]; simpl; auto.
Qed.

Lemma string_app_assoc (a b c : string) :
  ((a ++ b) ++ c)%string = (a ++ b ++ c)%string.
Proof. induction a; simpl; congruence. Qed.

Lemma get_beyond (s : string) :
  forall i, String.length s <= i -> get i s = None.
Proof.
  induction s as [ | c s IH ]; intros i Hi; [ reflexivity | ].
  destruct i as [ | i ]; simpl in *; [ lia | apply IH; lia ].
Qed.

Lemma star_is_no_digit : Mask.is_digit "*"%char = false.
Proof. reflexivity. Qed.

Lemma replace_digits_changes (l : list ascii) :
  forallb Mask.is_digit l = true ->
  8 <= List.length l ->
  Mask.replace l <> l.
Proof.
  intros Hd Hlen. unfold Mask.replace. rewrite (exec_digits l Hd Hlen).
  destruct l as [ | c0 [ | c1 [ | c2 [ | c3 rest ]]]]; simpl in Hlen; try lia.
  simpl in Hd. repeat (apply andb_true_iff in Hd; destruct Hd as [? Hd]).
  simpl. intros E. injection E as E _.
  rewrite <- E, star_is_no_digit in *. discriminate.
Qed.

Lemma mask_digits_changes (id : string) :
  all_digits id = true ->
  8 <= String.length id ->
  Mask.mask id <> id.
Proof.
  intros Hd Hlen E. unfold Mask.mask in E.
  apply (f_equal list_ascii_of_string) in E.
  rewrite list_ascii_of_string_of_list_ascii in E.
  revert E. apply replace_digits_changes; [ exact Hd | ].
  rewrite length_list_ascii_of_string. exact Hlen.
Qed.

(** ** Claims on the stored identifier *)

(** C3. For an id of eight digits, a record created by the submission
    stores as govId the first three digits followed by the placeholder
    [*****], which differs from the id, and stores as govIdSignature the
    SHA-1 digest, forty hexadecimal characters, of the id as it was
    submitted. *)
Theorem eight_digit_id_masked
  (w : World) (st : St) (body : VerifyBody) (p : PlayerRecord) :
  String.length (b_id body) = 8 ->
  all_digits (b_id body) = true ->
  store (snd (post_verify_gov w body st)) = store st ++ [p] ->
  govId p = (substring 0 3 (b_id body) ++ "*****")%string
  /\ govId p <> b_id body
  /\ govIdSignature p = Sha1.sha1_hex (b_id body)
  /\ String.length (govIdSignature p) = 40.
Proof.
  intros Hlen Hd Hp.
  destruct (created_record w body st p Hp) as [Hg Hs].
  rewrite Hg, Hs. split; [ | split; [ | split ] ].
  - rewrite mask_digits by (assumption || lia).
    rewrite Hlen, Nat.sub_diag, substring_zero. reflexivity.
  - apply mask_digits_changes; [ assumption | lia ].
  - reflexivity.
  - apply sha1_hex_length.
Qed.

(** C10. For an id of more than eight digits, a record created by the
    submission stores as govId the first three digits, the placeholder
    [*****] in place of digits four to eight, and every digit after the
    eighth as submitted, at its position. *)
Theorem long_id_tail_in_clear
  (w : World) (st : St) (body : VerifyBody) (p : PlayerRecord) :
  8 < String.length (b_id body) ->
  all_digits (b_id body) = true ->
  store (snd (post_verify_gov w body st)) = store st ++ [p] ->
  govId p
  = (substring 0 3 (b_id body) ++ "*****"
       ++ substring 8 (String.length (b_id body) - 8) (b_id body))%string
  /\ (forall i, 8 <= i -> get i (govId p) = get i (b_id body)).
Proof.
  intros Hlen Hd Hp.
  destruct (created_record w body st p Hp) as [Hg _].
  assert (Hm := mask_digits (b_id body) Hd (Nat.lt_le_incl _ _ Hlen)).
  rewrite Hg, Hm. split; [ reflexivity | ].
  intros i Hi.
  set (id := b_id body) in *.
  set (tail := substring 8 (String.length id - 8) id).
  assert (Hhead : String.length (substring 0 3 id ++ "*****")%string = 8).
  { assert (H3 : String.length (substring 0 3 id) = 3).
    { rewrite <- substring_chars, length_string_of_list_ascii.
      rewrite length_firstn, length_skipn, length_list_ascii_of_string.
      subst id. lia. }
    clear - H3. revert H3. generalize (substring 0 3 id).
    intros s H3.
    destruct s as [ | a [ | b [ | c [ | d s ]]]]; simpl in *; lia. }
  replace (substring 0 3 id ++ "*****" ++ tail)%string
    with ((substring 0 3 id ++ "*****") ++ tail)%string.
  2:{ apply string_app_assoc. }
  replace i with ((i - 8) + String.length (substring 0 3 id ++ "*****")%string)
    at 1 by lia.
  rewrite <- append_correct2. unfold tail.
  destruct (Nat.lt_ge_cases (i - 8) (String.length id - 8)) as [Hlt | Hge].
  - rewrite substring_correct1 by exact Hlt. f_equal. lia.
  - rewrite substring_correct2 by exact Hge.
    symmetry. apply get_beyond. lia.
Qed.

(** ** The OAuth callback *)

Lemma token_unbound :
  existsb (String.eqb "token") ("authToken" :: module_scope) = false.
Proof. reflexivity. Qed.

Lemma getUserInfo_run (w : World) (authToken : option string) (st : St) :
  getUserInfo authToken st
  = (Throw "ReferenceError: token is not defined", st).
Proof. reflexivity. Qed.

(** C5, as the code has it.  Whatever the token endpoint answers, the
    callback redirects to the home page and leaves the session as it
    was: [getUserInfo] throws before it sends the account request, so
    the branch that stores the user id, the user name and the token is
    never reached. *)
Theorem callback_never_signs_in
  (w : World) (code : option string) (st : St) :
  callback w code st
  = (Ok (Redirect 303 "/"),
     mkSt (store st) (session st) (log st ++ [EGetToken code])).
Proof.
  unfold callback, bind at 1, get_session, try_catch, bind at 1, emit.
  cbn [store session log]. unfold bind at 1, lift.
  destruct (getToken w code) as [ [ token | ] | e ]; reflexivity.
Qed.

(** ** The admin views *)

Lemma mem_In (u : string) (ids : list string) :
  mem u ids = true <-> In u ids.
Proof.
  unfold mem. rewrite existsb_exists. split.
  - intros [x [Hx E]]. apply String.eqb_eq in E. subst x. exact Hx.
  - intros H. exists u. split; [ exact H | apply String.eqb_refl ].
Qed.

Lemma listedb_spec t roster p :
  listedb t roster p = true <-> listed t roster p.
Proof.
  unfold listedb, listed. rewrite andb_true_iff, negb_true_iff.
  destruct t; rewrite <- mem_In.
  - destruct (mem (userId p) roster); simpl; intuition congruence.
  - reflexivity.
Qed.

Lemma roster_query_listedb t roster p :
  matches (mkQuery (Some (roster_cond t roster)) None (Some false)) p
  = listedb t roster p.
Proof.
  unfold matches, listedb; simpl.
  destruct t, (banned p); simpl;
    rewrite ?andb_true_r, ?andb_false_r; reflexivity.
Qed.

(** C7. For an admin session, a roster the platform delivers and a
    store that answers, the waiting view renders exactly the stored
    players that are not banned and whose user id is not in the roster,
    and the verified view exactly those that are not banned and whose
    user id is in the roster, each as often and in the order it is
    stored. *)
Theorem roster_views_exact
  (w : World) (st : St) (uid : string) (roster : list string)
  (t : PlayerType) :
  authenticated (session st) = Some uid ->
  LICHESS_TEAM_ADMIN w = Some uid ->
  team_users w (s_authToken (session st)) = Ok (mkStream roster None) ->
  (forall op, db_ok w op = true) ->
  exists players st',
    get_players w t st
    = (Ok (Render ("players/" ++ type_name t ++ ".html.twig")%string players),
       st')
    /\ players = filter (listedb t roster) (store st)
    /\ (forall p, In p players <-> In p (store st) /\ listed t roster p)
    /\ store st' = store st.
Proof.
  intros Hauth Hadm Hteam Hdb. apply is_admin_spec in Hadm.
  exists (filter (listedb t roster) (store st)). eexists.
  split; [ | split; [ reflexivity | split ] ].
  - unfold get_players, bind at 1, get_session. rewrite Hauth, Hadm.
    cbn [negb]. unfold try_catch, bind at 1.
    unfold getTeamMembers, bind at 1, emit, bind at 1, lift.
    cbn [store session log]. rewrite Hteam.
    unfold getUserIds, pipe_ndjson. cbn [failure members users ending].
    unfold ret at 1.
    unfold bind at 1. rewrite Player_find_run by apply Hdb.
    cbn [store session log].
    rewrite (filter_ext _ _ (roster_query_listedb t roster)).
    reflexivity.
  - intros p. rewrite filter_In, listedb_spec. reflexivity.
  - reflexivity.
Qed.

(** ** Ban and unban *)

(** C6, counterexample.  With the administrator signed in and a
    platform that rejects the kick request, the ban action answers with
    the error page, not with the verified list (and the local flag is
    set all the same). *)
Lemma ban_redirect_depends_on_outcome : ~ ban_redirect_unconditional.
Proof.
  intros H.
  specialize (H kick_refused
                (Sample.state_of [Sample.player "ann" "s1" false] "boss")
                "boss" "ann" eq_refl eq_refl).
  vm_compute in H. discriminate H.
Qed.

(** C6, amended.  For an admin session, the ban action issues the
    remote kick and the local update to banned = true, each whatever
    the other comes to: both calls are in the log and the store holds
    the update whenever the database took it.  The answer is a redirect
    to the verified list when neither of the two throws, whatever the
    kick's ok flag and whether or not a record matched, and a redirect
    to the error page when one of them throws.  The unban action issues
    one database update to banned = false and no remote call. *)
Theorem ban_and_unban_effects
  (w : World) (st : St) (uid user : string) :
  authenticated (session st) = Some uid ->
  LICHESS_TEAM_ADMIN w = Some uid ->
  let tok := s_authToken (session st) in
  let q := user_query user in
  (exists resp st',
     post_players_ban w user st = (Ok resp, st')
     /\ log st' = log st ++ [ETeamKick user tok; EDb (FindOneAndUpdate q true)]
     /\ store st' = (if db_ok w (FindOneAndUpdate q true)
                     then update_first q true (store st) else store st)
     /\ resp = match team_kick w user tok with
               | Ok _ =>
                   if db_ok w (FindOneAndUpdate q true)
                   then Redirect 303 "/players/verified"
                   else Redirect 303 "/messages/error"
               | Throw _ => Redirect 303 "/messages/error"
               end)
  /\
  (exists resp st',
     post_players_unban w user st = (Ok resp, st')
     /\ log st' = log st ++ [EDb (FindOneAndUpdate q false)]
     /\ forallb is_remote [EDb (FindOneAndUpdate q false)] = false
     /\ store st' = (if db_ok w (FindOneAndUpdate q false)
                     then update_first q false (store st) else store st)
     /\ resp = (if db_ok w (FindOneAndUpdate q false)
                then Redirect 303 "/players/verified"
                else Redirect 303 "/messages/error")).
Proof.
  intros Hauth Hadm tok q. subst tok q. unfold user_query.
  apply is_admin_spec in Hadm. split.
  - unfold post_players_ban, bind at 1, get_session. rewrite Hauth, Hadm.
    cbn [negb]. unfold try_catch, bind at 1, all2.
    rewrite kickTeamMember_run.
    destruct (db_ok w (FindOneAndUpdate _ true)) eqn:Hdb;
      [ rewrite Player_findOneAndUpdate_run by exact Hdb
      | rewrite Player_findOneAndUpdate_down by exact Hdb ];
      cbn [store session log];
      destruct (team_kick w user (s_authToken (session st))) as [ k | e ];
      do 2 eexists; (split; [ reflexivity | ]); cbn [store log];
      rewrite <- app_assoc; repeat split; reflexivity.
  - unfold post_players_unban, bind at 1, get_session. rewrite Hauth, Hadm.
    cbn [negb]. unfold try_catch, bind at 1.
    destruct (db_ok w (FindOneAndUpdate _ false)) eqn:Hdb;
      [ rewrite Player_findOneAndUpdate_run by exact Hdb
      | rewrite Player_findOneAndUpdate_down by exact Hdb ];
      do 2 eexists; (split; [ reflexivity | ]); repeat split; reflexivity.
Qed.

Lemma update_first_flag (user : string) (b : bool) (l : list PlayerRecord) :
  find (matches (user_query user)) (update_first (user_query user) b l)
  = option_map (set_banned b) (find (matches (user_query user)) l).
Proof.
  induction l as [ | p l IH ]; simpl; [ reflexivity | ].
  destruct (matches (user_query user) p) eqn:E; simpl.
  - unfold matches in *. simpl in *. rewrite E. reflexivity.
  - rewrite E. exact IH.
Qed.

(** ** Runs on sample inputs *)

Example sha1_empty :
  Sha1.sha1_hex "" = "da39a3ee5e6b4b0d3255bfef95601890afd80709".
Proof. vm_compute. reflexivity. Qed.

Example sha1_abc :
  Sha1.sha1_hex "abc" = "a9993e364706816aba3e25717850c26c9cd0d89d".
Proof. vm_compute. reflexivity. Qed.

Example sha1_fox :
  Sha1.sha1_hex "The quick brown fox jumps over the lazy dog"
  = "2fd4e1c67a2d28fced849ee1bb76e7391b93eb12".
Proof. vm_compute. reflexivity. Qed.

Example sha1_two_blocks :
  Sha1.sha1_hex "abcdbcdecdefdefgefghfghighijhijkijkljklmklmnlmnomnopnopq"
  = "84983e441c3bd26ebaae4aa1f95129e5e54670f1".
Proof. vm_compute. reflexivity. Qed.

Example sha1_id8 : Sha1.sha1_hex "12345678" = sig8.
Proof. vm_compute. reflexivity. Qed.

Example mask_samples :
  Mask.mask "12345678" = "123*****"
  /\ Mask.mask "12345678901" = "123*****901"
  /\ Mask.mask "1234567" = "1234567"
  /\ Mask.mask "ab12345678" = "ab123*****"
  /\ Mask.mask "12a456789012" = "12a456*****2"
  /\ Mask.mask "" = "".
Proof. vm_compute. repeat split. Qed.

(** C4, at a failing input.  An id of seven digits holds no run the
    pattern matches; when the identity service accepts it, the record
    created stores the id itself, unmasked, as govId. *)
Theorem short_id_stored_unmasked :
  store (snd (post_verify_gov Sample.calm Sample.body7 (Sample.state_of [] "ann")))
  = [mkPlayer "ann" (Some "ann") "ADA" "LOVELACE" (Some 1990%float) "1234567"
              "20eabe5d64b0e216796e834f52d61fd0b70332fc" false]
  /\ b_id Sample.body7 = "1234567".
Proof. vm_compute. split; reflexivity. Qed.

(** A first submission of an accepted id, next to records of other people. *)
Lemma verify_success_creates_record_witness :
  exists r st',
    post_verify_gov Sample.calm Sample.body8 (Sample.state_of others "ann")
    = (Ok (Redirect 303 "/messages/success"), st')
    /\ store st' = others ++ [r]
    /\ session st' = Sample.user_session "ann"
    /\ banned r = false
    /\ userId r = "ann"
    /\ userName r = Some "ann"
    /\ firstName r = "ADA"
    /\ lastName r = "LOVELACE"
    /\ birthYear r = Some 1990%float.
Proof.
  apply (verify_success_creates_record Sample.calm
           (Sample.state_of others "ann") Sample.body8 "ann"
           (Boolean true) (Boolean true) (Some 1990%float)).
  - reflexivity.
  - reflexivity.
  - reflexivity.
  - intros p [ <- | [ <- | [] ] ] Hb E.
    + vm_compute in E. discriminate E.
    + discriminate Hb.
  - reflexivity.
  - reflexivity.
  - reflexivity.
  - intros op. reflexivity.
Defined.

(** The same id banned under another account, then under the session's own. *)
Lemma verify_banned_signature_witness :
  (exists r st',
     post_verify_gov Sample.calm Sample.body8
       (Sample.state_of [Sample.player "zed" sig8 true] "ann")
     = (Ok (Redirect 303 "/messages/banned"), st')
     /\ store st' = [Sample.player "zed" sig8 true] ++ [r]
     /\ banned r = true
     /\ userId r = "ann"
     /\ govIdSignature r = Sha1.sha1_hex "12345678")
  /\
  (exists st',
     post_verify_gov Sample.calm Sample.body8
       (Sample.state_of [Sample.player "ann" sig8 true] "ann")
     = (Ok (Redirect 303 "/messages/banned"), st')
     /\ store st' = [Sample.player "ann" sig8 true]).
Proof.
  split.
  - apply (verify_banned_signature Sample.calm
             (Sample.state_of [Sample.player "zed" sig8 true] "ann")
             Sample.body8 "ann" (Boolean true) (Some 1990%float)
             eq_refl eq_refl eq_refl).
    + exists (Sample.player "zed" sig8 true).
      split; [ left; reflexivity | split; [ reflexivity | ] ].
      vm_compute. reflexivity.
    + intros op. reflexivity.
    + intros p [ <- | [] ] _ _ E. discriminate E.
    + reflexivity.
  - apply (verify_banned_signature Sample.calm
             (Sample.state_of [Sample.player "ann" sig8 true] "ann")
             Sample.body8 "ann" (Boolean true) (Some 1990%float)
             eq_refl eq_refl eq_refl).
    + exists (Sample.player "ann" sig8 true).
      split; [ left; reflexivity | split; [ reflexivity | ] ].
      vm_compute. reflexivity.
    + intros op. reflexivity.
    + exists (Sample.player "ann" sig8 true).
      split; [ left; reflexivity | ].
      split; [ reflexivity | split; [ vm_compute | ]; reflexivity ].
Defined.

(** A submission the identity service rejects. *)
Lemma verify_rejected_writes_nothing_witness :
  post_verify_gov strict Sample.body8 (Sample.state_of others "ann")
  = (Ok (Redirect 303 "/verify/gov"),
     mkSt others (Sample.user_session "ann")
          ([] ++ gov_events strict Sample.body8))
  /\ (forall op, ~ In (EDb op) (gov_events strict Sample.body8)).
Proof.
  apply (verify_rejected_writes_nothing strict
           (Sample.state_of others "ann") Sample.body8 "ann" (Boolean false));
    reflexivity.
Defined.

(** A signed-in player who is not the administrator. *)
Lemma admin_routes_reject_others_witness :
  let st := Sample.state_of others "ann" in
  get_players Sample.calm waiting st = (Ok (Redirect 303 "/"), st)
  /\ get_players_banned Sample.calm st = (Ok (Redirect 303 "/"), st)
  /\ post_players_ban Sample.calm "cy" st = (Ok (Redirect 303 "/"), st)
  /\ post_players_unban Sample.calm "cy" st = (Ok (Redirect 303 "/"), st).
Proof.
  apply (admin_routes_reject_others Sample.calm
           (Sample.state_of others "ann") "ann" "cy" waiting);
    [ reflexivity | discriminate ].
Defined.

(** The record created for the id 12345678; the digest of the masked
    string is another one. *)
Lemma eight_digit_id_masked_witness :
  let p := mkPlayer "ann" (Some "ann") "ADA" "LOVELACE" (Some 1990%float) "123*****"
                    sig8 false in
  (govId p = (substring 0 3 "12345678" ++ "*****")%string
   /\ govId p <> "12345678"
   /\ govIdSignature p = Sha1.sha1_hex "12345678"
   /\ String.length (govIdSignature p) = 40)
  /\ Sha1.sha1_hex "123*****" <> govIdSignature p.
Proof.
  intros p. split.
  - apply (eight_digit_id_masked Sample.calm (Sample.state_of others "ann")
             Sample.body8 p).
    + reflexivity.
    + reflexivity.
    + vm_compute. reflexivity.
  - intros E. vm_compute in E. discriminate E.
Defined.

(** The record created for an id of eleven digits keeps the last three. *)
Lemma long_id_tail_in_clear_witness :
  let p := mkPlayer "ann" (Some "ann") "ADA" "LOVELACE" (Some 1990%float) "123*****901"
                    "266dc053a8163e676e83243070241c8917f8a8a3" false in
  govId p = (substring 0 3 "12345678901" ++ "*****"
               ++ substring 8 (11 - 8) "12345678901")%string
  /\ (forall i, 8 <= i -> get i (govId p) = get i "12345678901").
Proof.
  intros p.
  apply (long_id_tail_in_clear Sample.calm (Sample.state_of others "ann")
           Sample.body11 p).
  - simpl. lia.
  - reflexivity.
  - vm_compute. reflexivity.
Defined.

(** The waiting view over a store of four records and a roster of two. *)
Lemma roster_views_exact_witness :
  exists players st',
    get_players Sample.calm waiting (Sample.state_of roster_store "boss")
    = (Ok (Render ("players/" ++ type_name waiting ++ ".html.twig")%string
                  players), st')
    /\ players = filter (listedb waiting ["ann"; "bob"]) roster_store
    /\ (forall p, In p players
                  <-> In p roster_store /\ listed waiting ["ann"; "bob"] p)
    /\ store st' = roster_store.
Proof.
  apply (roster_views_exact Sample.calm (Sample.state_of roster_store "boss")
           "boss" ["ann"; "bob"] waiting).
  - reflexivity.
  - reflexivity.
  - reflexivity.
  - intros op. reflexivity.
Defined.

Example waiting_view_sample :
  fst (get_players Sample.calm waiting (Sample.state_of roster_store "boss"))
  = Ok (Render "players/waiting.html.twig" [Sample.player "cy" "s2" false]).
Proof. vm_compute. reflexivity. Qed.

Example verified_view_sample :
  fst (get_players Sample.calm verified (Sample.state_of roster_store "boss"))
  = Ok (Render "players/verified.html.twig" [Sample.player "ann" "s1" false]).
Proof. vm_compute. reflexivity. Qed.

(** Ban and unban of a member while the platform refuses the kick. *)
Lemma ban_and_unban_effects_witness :
  let st := Sample.state_of roster_store "boss" in
  let q := user_query "ann" in
  (exists resp st',
     post_players_ban kick_refused "ann" st = (Ok resp, st')
     /\ log st' = [] ++ [ETeamKick "ann" (Some "tok");
                         EDb (FindOneAndUpdate q true)]
     /\ store st' = update_first q true roster_store
     /\ resp = Redirect 303 "/messages/error")
  /\
  (exists resp st',
     post_players_unban kick_refused "ann" st = (Ok resp, st')
     /\ log st' = [] ++ [EDb (FindOneAndUpdate q false)]
     /\ forallb is_remote [EDb (FindOneAndUpdate q false)] = false
     /\ store st' = update_first q false roster_store
     /\ resp = Redirect 303 "/players/verified").
Proof.
  apply (ban_and_unban_effects kick_refused
           (Sample.state_of roster_store "boss") "boss" "ann");
    reflexivity.
Defined.

(** ** Further properties: what every request keeps *)

Ltac unfold_run :=
  unfold post_verify_gov, get_verify_gov, get_players, get_players_banned,
    post_players_ban, post_players_unban, Player_find, Player_findOne,
    Player_create, Player_findOneAndUpdate, db, verifyUserGovId, joinTeam,
    kickTeamMember, getTeamMembers, getUserIds, pipe_ndjson, try_catch, all2,
    bind, emit, lift, ret, throw, pending, get_session, get_store, put_store;
  cbn [store session log fst snd failure members users ending].

Ltac split_run :=
  repeat (cbv beta iota; cbn [store session log fst snd negb];
          match goal with
          | |- context [match ?x with _ => _ end] =>
              lazymatch x with
              | context [match _ with _ => _ end] => fail
              | _ => destruct x eqn:?
              end
          end);
  cbv beta iota; cbn [store session log fst snd negb].

(** X1. Without a signed-in user, the verification page and the
    verification submission both redirect to the login route with the
    verification page as return URL, and nothing is sent anywhere. *)
Theorem verify_requires_login
  (w : World) (st : St) (body : VerifyBody) (fullYear : Z) :
  authenticated (session st) = None ->
  post_verify_gov w body st
  = (Ok (Redirect 303 "/auth?returnUrl=/verify/gov"), st)
  /\ get_verify_gov w fullYear st
     = (Ok (Answer (Redirect 303 "/auth?returnUrl=/verify/gov")), st).
Proof.
  intros Hauth. unfold post_verify_gov, get_verify_gov, bind, get_session.
  rewrite Hauth. split; reflexivity.
Qed.

(** X2. Without a signed-in user, each admin route redirects to the
    login route and sends nothing anywhere; the return URL is the list
    asked for, the verified list for a ban and the banned list for an
    unban. *)
Theorem admin_routes_require_login
  (w : World) (st : St) (user : string) (t : PlayerType) :
  authenticated (session st) = None ->
  get_players w t st
  = (Ok (Redirect 303 ("/auth?returnUrl=/players/" ++ type_name t)%string), st)
  /\ get_players_banned w st
     = (Ok (Redirect 303 "/auth?returnUrl=/players/banned"), st)
  /\ post_players_ban w user st
     = (Ok (Redirect 303 "/auth?returnUrl=/players/verified"), st)
  /\ post_players_unban w user st
     = (Ok (Redirect 303 "/auth?returnUrl=/players/banned"), st).
Proof.
  intros Hauth.
  unfold get_players, get_players_banned, post_players_ban,
    post_players_unban, bind, get_session.
  rewrite Hauth. repeat split; reflexivity.
Qed.


(** ** Further properties: the verification submission *)

(** X4. A submission never changes or removes a stored record and never
    writes for somebody else: the store after it is the store before,
    or the store before with one record appended, which carries the
    signed-in user's id and user name, the submitted name and surname,
    the year as the schema casts it, the masked id and the SHA-1 digest
    of the submitted id. *)
Theorem verify_writes_only_own_record
  (w : World) (body : VerifyBody) (st : St) :
  store (snd (post_verify_gov w body st)) = store st
  \/ exists uid y b,
       authenticated (session st) = Some uid
       /\ castNumber w (b_year body) = Ok y
       /\ store (snd (post_verify_gov w body st))
          = store st
            ++ [mkPlayer uid (s_userName (session st)) (b_name body)
                         (b_surname body) y
                         (Mask.mask (b_id body))
                         (Sha1.sha1_hex (b_id body)) b].
Proof.
  remember (post_verify_gov w body st) as out eqn:Hout.
  revert Hout. unfold_run. split_run; intros ->; cbn [snd store];
    first [ left; reflexivity
          | right; do 3 eexists;
            split; [ reflexivity | split; [ eassumption | reflexivity ] ] ].
Qed.

(** X5. The answer of a submission tells what was written.  After the
    success page, one record that is not banned was appended for the
    signed-in user and the team join was issued; after the banned page,
    the store is as before or one banned record was appended; after any
    other answer the store is as before. *)
Theorem verify_answer_tells_store
  (w : World) (body : VerifyBody) (st : St) :
  let out := post_verify_gov w body st in
  let idSig := Sha1.sha1_hex (b_id body) in
  (fst out = Ok (Redirect 303 "/messages/success") ->
   exists uid y,
     authenticated (session st) = Some uid
     /\ store (snd out)
        = store st ++ [new_player uid (session st) body y idSig false]
     /\ In (ETeamJoin (s_authToken (session st))) (log (snd out)))
  /\ (fst out = Ok (Redirect 303 "/messages/banned") ->
      store (snd out) = store st
      \/ exists uid y,
           store (snd out)
           = store st ++ [new_player uid (session st) body y idSig true])
  /\ (fst out <> Ok (Redirect 303 "/messages/success") ->
      fst out <> Ok (Redirect 303 "/messages/banned") ->
      store (snd out) = store st).
Proof.
  intros out idSig. subst idSig.
  remember out as o eqn:Ho. subst out. revert Ho.
  unfold_run. split_run; intros ->; cbn [fst snd store log];
    (split; [ | split ]);
    try (intros E; discriminate E);
    try (intros E1 E2; first [ reflexivity | congruence ]);
    try (intros _;
         first [ left; reflexivity | right; do 2 eexists; reflexivity ]).
  intros _. do 2 eexists. split; [ reflexivity | ].
  split; [ reflexivity | ].
  apply in_or_app. left. apply in_or_app. right. left. reflexivity.
Qed.

Lemma banned_match_positive (idSig : string) (l : list PlayerRecord) :
  (exists p, In p l /\ banned p = true /\ govIdSignature p = idSig) ->
  (0 <? List.length
          (filter (matches (mkQuery None (Some idSig) (Some true))) l))%nat
  = true.
Proof.
  intros H. apply length_pos_nonempty.
  apply (proj2 (banned_match_exists idSig l) H).
Qed.

(** X6. An identity that is banned is never sent to the team: when a
    banned record carries the signature of the submitted id, the
    submission issues no join request, whatever the account, the
    services and the database do. *)
Theorem banned_identity_never_joined
  (w : World) (body : VerifyBody) (st : St) :
  (exists p, In p (store st) /\ banned p = true
             /\ govIdSignature p = Sha1.sha1_hex (b_id body)) ->
  exists evs,
    log (snd (post_verify_gov w body st)) = log st ++ evs
    /\ forall tok, ~ In (ETeamJoin tok) evs.
Proof.
  intros Hban. apply banned_match_positive in Hban.
  remember (post_verify_gov w body st) as out eqn:Hout.
  revert Hout. unfold_run. split_run; intros ->; cbn [snd log];
    try congruence;
    rewrite <- ?app_assoc;
    (eexists; split;
     [ first [ reflexivity | symmetry; apply app_nil_r ]
     | intros tok Hin; simpl in Hin; intuition discriminate ]).
Qed.

(** X7. When the team join answers with a falsy ok, the submission ends
    on the error page and writes no record, although the identity
    service accepted the id. *)
Theorem join_refused_writes_nothing
  (w : World) (st : St) (body : VerifyBody) (uid : string) (status ok : Val) :
  authenticated (session st) = Some uid ->
  gov_answer w body = Ok status ->
  truthy status = true ->
  (forall p, In p (store st) -> banned p = true ->
             govIdSignature p <> Sha1.sha1_hex (b_id body)) ->
  db_ok w (Find (sig_query (Sha1.sha1_hex (b_id body)))) = true ->
  team_join w (s_authToken (session st)) = Ok ok ->
  truthy ok = false ->
  post_verify_gov w body st
  = (Ok (Redirect 303 "/messages/error"),
     mkSt (store st) (session st)
          (log st ++ gov_events w body
             ++ [EDb (Find (sig_query (Sha1.sha1_hex (b_id body))));
                 ETeamJoin (s_authToken (session st))])).
Proof.
  intros Hauth Hgov Hst Hnone Hdb Hjoin Hok.
  set (idSig := Sha1.sha1_hex (b_id body)) in *.
  unfold post_verify_gov, bind at 1, get_session. rewrite Hauth.
  unfold try_catch, bind at 1. rewrite verifyUserGovId_run, Hgov, Hst.
  cbn [negb]. unfold bind at 1. fold idSig. fold (sig_query idSig).
  rewrite Player_find_run by exact Hdb.
  cbn [store session log].
  rewrite (no_banned_match idSig (store st) Hnone).
  cbn [List.length Nat.ltb Nat.leb].
  unfold bind at 1. rewrite joinTeam_run. cbn [store session log].
  rewrite Hjoin, Hok. cbn [negb]. unfold ret.
  rewrite <- !app_assoc. reflexivity.
Qed.

(** ** Further properties: the masking replacement on any id *)

Lemma find_seq_some (f : nat -> bool) :
  forall n a i,
    find f (seq a n) = Some i ->
    f i = true /\ a <= i < a + n /\ forall k, a <= k < i -> f k = false.
Proof.
  induction n as [ | n IH ]; intros a i H; simpl in H; [ discriminate | ].
  destruct (f a) eqn:Fa.
  - injection H as <-. split; [ exact Fa | split; [ lia | intros k Hk; lia ] ].
  - destruct (IH (S a) i H) as [Hi [Hr Hk]].
    split; [ exact Hi | split; [ lia | ] ].
    intros k Hka. destruct (Nat.eq_dec k a) as [ -> | Hne ];
      [ exact Fa | apply Hk; lia ].
Qed.

Lemma find_seq_none (f : nat -> bool) :
  forall n a,
    find f (seq a n) = None <-> forall k, a <= k < a + n -> f k = false.
Proof.
  induction n as [ | n IH ]; intros a; simpl.
  - split; [ intros _ k Hk; lia | reflexivity ].
  - destruct (f a) eqn:Fa.
    + split; [ discriminate | ].
      intros H. rewrite (H a) in Fa by lia. discriminate.
    + rewrite IH. split; intros H k Hk.
      * destruct (Nat.eq_dec k a) as [ -> | Hne ];
          [ exact Fa | apply H; lia ].
      * apply H. lia.
Qed.

Lemma digits_at_spec (n : nat) (s : list ascii) (i : nat) :
  0 < n ->
  Mask.digits_at n s i = true
  <-> i + n <= List.length s
      /\ forall k, k < n ->
           exists c, nth_error s (i + k) = Some c /\ Mask.is_digit c = true.
Proof.
  intros Hn.
  unfold Mask.digits_at. rewrite andb_true_iff, Nat.eqb_eq, forallb_forall.
  rewrite length_firstn, length_skipn. split.
  - intros [Hlen Hall]. split; [ lia | ].
    intros k Hk.
    destruct (nth_error s (i + k)) as [ c | ] eqn:E.
    + exists c. split; [ reflexivity | ]. apply Hall.
      apply (nth_error_In _ k).
      rewrite nth_error_firstn.
      destruct (Nat.ltb_spec k n); [ | lia ].
      rewrite nth_error_skipn. exact E.
    + apply nth_error_None in E. lia.
  - intros [Hlen Hall]. split; [ lia | ].
    intros c Hin. apply In_nth_error in Hin. destruct Hin as [k Hk].
    rewrite nth_error_firstn in Hk.
    destruct (Nat.ltb_spec k n) as [ Hlt | ]; [ | discriminate ].
    rewrite nth_error_skipn in Hk.
    destruct (Hall k Hlt) as [c' [E Hd]]. congruence.
Qed.

Lemma match_at_spec (s : list ascii) (i : nat) :
  Mask.match_at s i = true
  <-> 3 <= i /\ i + 5 <= List.length s
      /\ forall j, i - 3 <= j < i + 5 ->
           exists c, nth_error s j = Some c /\ Mask.is_digit c = true.
Proof.
  unfold Mask.match_at, Mask.lookbehind.
  rewrite !andb_true_iff, Nat.leb_le, !digits_at_spec by lia. split.
  - intros [[H3 [_ Hb]] [Hlen Hf]]. split; [ exact H3 | split; [ exact Hlen | ] ].
    intros j Hj. destruct (Nat.lt_ge_cases j i) as [ Hlt | Hge ].
    + replace j with (i - 3 + (j - (i - 3))) by lia. apply Hb. lia.
    + replace j with (i + (j - i)) by lia. apply Hf. lia.
  - intros [H3 [Hlen H]]. repeat split; try lia.
    + intros k Hk. apply H. lia.
    + intros k Hk. apply H. lia.
Qed.

Lemma exec_spec (s : list ascii) (i : nat) :
  Mask.exec s = Some i
  <-> Mask.match_at s i = true
      /\ forall k, k < i -> Mask.match_at s k = false.
Proof.
  unfold Mask.exec. split.
  - intros H. apply find_seq_some in H. destruct H as [Hi [_ Hk]].
    split; [ exact Hi | intros k Hlt; apply Hk; lia ].
  - intros [Hi Hk].
    destruct (find (Mask.match_at s) (seq 0 (S (List.length s))))
      as [ j | ] eqn:E.
    + apply find_seq_some in E. destruct E as [Hj [_ Hlt]].
      destruct (Nat.lt_trichotomy i j) as [ H | [ H | H ] ].
      * rewrite Hlt in Hi by lia. discriminate.
      * congruence.
      * rewrite Hk in Hj by exact H. discriminate.
    + rewrite find_seq_none in E.
      destruct (proj1 (match_at_spec s i) Hi) as [_ [Hlen _]].
      rewrite E in Hi by lia. discriminate Hi.
Qed.

Lemma get_nth_error (s : string) :
  forall j, get j s = nth_error (list_ascii_of_string s) j.
Proof.
  induction s as [ | c s IH ]; intros [ | j ]; simpl; auto.
Qed.

Lemma replace_nth_error (l : list ascii) (i : nat) :
  Mask.exec l = Some i ->
  forall j,
    nth_error (Mask.replace l) j
    = if ((i <=? j)%nat && (j <? i + 5)%nat) then Some "*"%char else nth_error l j.
Proof.
  intros H j. unfold Mask.replace. rewrite H.
  apply exec_spec in H. destruct H as [H _].
  apply match_at_spec in H. destruct H as [_ [Hlen _]].
  assert (Hfi : List.length (firstn i l) = i)
    by (rewrite length_firstn; lia).
  destruct (Nat.leb_spec i j) as [ Hij | Hij ]; cbn [andb].
  - rewrite nth_error_app2 by lia. rewrite Hfi.
    destruct (Nat.ltb_spec j (i + 5)) as [ Hj | Hj ].
    + assert (Hd : j - i < 5) by lia. revert Hd. generalize (j - i).
      intros d Hd.
      destruct d as [ | [ | [ | [ | [ | d ]]]]]; try reflexivity; lia.
    + rewrite nth_error_app2 by (simpl; lia).
      rewrite nth_error_skipn. f_equal. simpl. lia.
  - rewrite nth_error_app1 by lia.
    rewrite nth_error_firstn.
    destruct (Nat.ltb_spec j i); [ reflexivity | lia ].
Qed.

Lemma replace_length (l : list ascii) :
  List.length (Mask.replace l) = List.length l.
Proof.
  unfold Mask.replace. destruct (Mask.exec l) as [ i | ] eqn:H;
    [ | reflexivity ].
  apply exec_spec in H. destruct H as [H _].
  apply match_at_spec in H. destruct H as [_ [Hlen _]].
  rewrite !length_app, length_firstn, length_skipn. simpl. lia.
Qed.

Lemma replace_changes (l : list ascii) (i : nat) :
  Mask.exec l = Some i -> Mask.replace l <> l.
Proof.
  intros H E. assert (Hn := replace_nth_error l i H i).
  rewrite E in Hn.
  apply exec_spec in H. destruct H as [H _].
  apply match_at_spec in H. destruct H as [_ [_ Hd]].
  destruct (Hd i) as [c [Hc Hdig]]; [ lia | ].
  rewrite Hc in Hn.
  destruct (Nat.leb_spec i i); [ | lia ].
  destruct (Nat.ltb_spec i (i + 5)); [ | lia ].
  simpl in Hn. injection Hn as ->. discriminate Hdig.
Qed.

(** X8. Masking never changes the length of an id. *)
Theorem mask_keeps_length (id : string) :
  String.length (Mask.mask id) = String.length id.
Proof.
  unfold Mask.mask.
  rewrite length_string_of_list_ascii, replace_length.
  apply length_list_ascii_of_string.
Qed.


Lemma digit_run_match (id : string) (i : nat) :
  digit_run id i -> Mask.match_at (list_ascii_of_string id) (i + 3) = true.
Proof.
  intros Hrun. apply match_at_spec.
  destruct (Hrun (i + 7)) as [c [Hc _]]; [ lia | ].
  rewrite get_nth_error in Hc.
  assert (Hlt : i + 7 < List.length (list_ascii_of_string id))
    by (apply nth_error_Some; congruence).
  split; [ lia | split; [ lia | ] ].
  intros j Hj. rewrite <- get_nth_error. apply Hrun. lia.
Qed.

(** X10. The stored govId differs from the submitted id exactly when the
    id holds eight digits in a row somewhere. *)
Theorem mask_changes_iff_digit_run (id : string) :
  Mask.mask id <> id <-> exists i, digit_run id i.
Proof.
  unfold digit_run. split.
  - intros Hne.
    destruct (Mask.exec (list_ascii_of_string id)) as [ i | ] eqn:E;
      [ | elim Hne; apply mask_without_match; exact E ].
    apply exec_spec in E. destruct E as [E _].
    apply match_at_spec in E. destruct E as [H3 [_ Hd]].
    exists (i - 3). intros j Hj. rewrite get_nth_error. apply Hd. lia.
  - intros [i Hrun] E.
    assert (Hm := digit_run_match id i Hrun).
    destruct (Mask.exec (list_ascii_of_string id)) as [ k | ] eqn:Ek.
    + apply (replace_changes _ k Ek).
      unfold Mask.mask in E.
      apply (f_equal list_ascii_of_string) in E.
      rewrite list_ascii_of_string_of_list_ascii in E. exact E.
    + unfold Mask.exec in Ek. rewrite find_seq_none in Ek.
      apply match_at_spec in Hm as Hm'.
      rewrite Ek in Hm by lia. discriminate Hm.
Qed.

(** X11. When masking changes an id, it changes five characters in a
    row and nothing else: they were digits and become stars, the three
    characters before them are digits and stay, and so does every other
    character, at its position.  The eight digits are the leftmost
    such run of the id. *)
Theorem mask_changes_five_digits (id : string) :
  Mask.mask id <> id ->
  exists i,
    3 <= i /\ i + 5 <= String.length id
    /\ (forall j, i <= j < i + 5 ->
          get j (Mask.mask id) = Some "*"%char
          /\ exists c, get j id = Some c /\ Mask.is_digit c = true)
    /\ (forall j, i - 3 <= j < i ->
          exists c, get j (Mask.mask id) = Some c /\ get j id = Some c
                    /\ Mask.is_digit c = true)
    /\ (forall j, j < i \/ i + 5 <= j -> get j (Mask.mask id) = get j id)
    /\ (forall k, k + 3 < i -> ~ digit_run id k).
Proof.
  intros Hne.
  destruct (Mask.exec (list_ascii_of_string id)) as [ i | ] eqn:E;
    [ | elim Hne; apply mask_without_match; exact E ].
  assert (Hnth := replace_nth_error _ i E).
  assert (Hget : forall j,
            get j (Mask.mask id)
            = if ((i <=? j)%nat && (j <? i + 5)%nat) then Some "*"%char else get j id).
  { intros j. rewrite !get_nth_error. unfold Mask.mask.
    rewrite list_ascii_of_string_of_list_ascii. apply Hnth. }
  apply exec_spec in E. destruct E as [E Hfirst].
  apply match_at_spec in E. destruct E as [H3 [Hlen Hd]].
  rewrite length_list_ascii_of_string in Hlen.
  exists i. split; [ exact H3 | split; [ exact Hlen | ] ].
  split; [ | split; [ | split ] ].
  - intros j Hj. rewrite Hget.
    destruct (Nat.leb_spec i j); [ | lia ].
    destruct (Nat.ltb_spec j (i + 5)); [ | lia ].
    split; [ reflexivity | ]. rewrite get_nth_error. apply Hd. lia.
  - intros j Hj. rewrite Hget.
    destruct (Nat.leb_spec i j); [ lia | ]. cbn [andb].
    destruct (Hd j) as [c [Hc Hdig]]; [ lia | ].
    exists c. rewrite get_nth_error. auto.
  - intros j Hj. rewrite Hget.
    destruct (Nat.leb_spec i j); cbn [andb]; [ | reflexivity ].
    destruct (Nat.ltb_spec j (i + 5)); [ lia | reflexivity ].
  - intros k Hk Hrun. apply digit_run_match in Hrun.
    rewrite Hfirst in Hrun by lia. discriminate Hrun.
Qed.

(** ** Further properties: ban and unban on the store *)

Lemma matches_user_query (u : string) (p : PlayerRecord) :
  matches (user_query u) p = (userId p =? u)%string.
Proof.
  unfold matches, user_query; simpl. rewrite !andb_true_r. reflexivity.
Qed.

Lemma update_first_unflag (q : Query) (b : bool) (l : list PlayerRecord) :
  map (set_banned false) (update_first q b l) = map (set_banned false) l.
Proof.
  induction l as [ | p l IH ]; simpl; [ reflexivity | ].
  destruct (matches q p); simpl; [ reflexivity | ].
  rewrite IH. reflexivity.
Qed.

Lemma update_first_others (u : string) (b : bool) (l : list PlayerRecord) :
  forall i p,
    nth_error l i = Some p -> userId p <> u ->
    nth_error (update_first (user_query u) b l) i = Some p.
Proof.
  induction l as [ | q l IH ]; intros i p Hi Hne; [ destruct i; discriminate | ].
  simpl. rewrite matches_user_query.
  destruct (String.eqb_spec (userId q) u) as [ Hq | Hq ].
  - destruct i as [ | i ]; simpl in *; [ | exact Hi ].
    injection Hi as ->. contradiction.
  - destruct i as [ | i ]; simpl in *; [ exact Hi | ].
    apply IH; assumption.
Qed.

Lemma update_first_decompose (u : string) (b : bool)
      (l1 l2 : list PlayerRecord) (p : PlayerRecord) :
  (forall q, In q l1 -> userId q <> u) ->
  userId p = u ->
  update_first (user_query u) b (l1 ++ p :: l2)
  = l1 ++ set_banned b p :: l2.
Proof.
  intros Hl1 Hp. induction l1 as [ | q l1 IH ]; simpl.
  - rewrite matches_user_query, Hp, String.eqb_refl. reflexivity.
  - rewrite matches_user_query.
    destruct (String.eqb_spec (userId q) u) as [ Hq | Hq ].
    + exfalso. apply (Hl1 q); [ left; reflexivity | exact Hq ].
    + f_equal. apply IH. intros r Hr. apply Hl1. right. exact Hr.
Qed.

Lemma update_first_no_match (u : string) (b : bool) (l : list PlayerRecord) :
  (forall q, In q l -> userId q <> u) ->
  update_first (user_query u) b l = l.
Proof.
  intros H. induction l as [ | q l IH ]; simpl; [ reflexivity | ].
  rewrite matches_user_query.
  destruct (String.eqb_spec (userId q) u) as [ Hq | Hq ].
  - exfalso. apply (H q); [ left; reflexivity | exact Hq ].
  - f_equal. apply IH. intros r Hr. apply H. right. exact Hr.
Qed.

Lemma update_first_twice (u : string) (b1 b2 : bool) (l : list PlayerRecord) :
  update_first (user_query u) b2 (update_first (user_query u) b1 l)
  = update_first (user_query u) b2 l.
Proof.
  induction l as [ | p l IH ]; simpl; [ reflexivity | ].
  rewrite matches_user_query.
  destruct (userId p =? u)%string eqn:E; simpl.
  - rewrite matches_user_query. simpl. rewrite E. reflexivity.
  - rewrite matches_user_query, E, IH. reflexivity.
Qed.

Lemma set_banned_same (p : PlayerRecord) : set_banned (banned p) p = p.
Proof. destruct p; reflexivity. Qed.

Lemma update_first_same (u : string) (b : bool) (l : list PlayerRecord) :
  (forall p, find (matches (user_query u)) l = Some p -> banned p = b) ->
  update_first (user_query u) b l = l.
Proof.
  induction l as [ | p l IH ]; simpl; intros H; [ reflexivity | ].
  destruct (matches (user_query u) p).
  - rewrite <- (H p eq_refl), set_banned_same. reflexivity.
  - f_equal. apply IH. exact H.
Qed.

Lemma moderation_run (w : World) (st : St) (uid user : string) (b : bool) :
  authenticated (session st) = Some uid ->
  LICHESS_TEAM_ADMIN w = Some uid ->
  db_ok w (FindOneAndUpdate (user_query user) b) = true ->
  let out := if b then post_players_ban w user st
             else post_players_unban w user st in
  store (snd out) = update_first (user_query user) b (store st)
  /\ session (snd out) = session st.
Proof.
  intros Hauth Hadm Hdb. apply is_admin_spec in Hadm.
  unfold user_query in *.
  destruct b; cbn zeta;
    unfold post_players_ban, post_players_unban, bind at 1, get_session;
    rewrite Hauth, Hadm; cbn [negb]; unfold_run; rewrite Hdb;
    split_run; split; reflexivity.
Qed.

(** X12. Ban and unban never add, remove or reorder records and never
    change a field other than the banned flag, whoever asks and
    whatever the platform and the database do: with the flags set
    aside, the store after the request is the store before. *)
Theorem moderation_only_flips_flag (w : World) (st : St) (user : string) :
  map (set_banned false) (store (snd (post_players_ban w user st)))
  = map (set_banned false) (store st)
  /\ map (set_banned false) (store (snd (post_players_unban w user st)))
     = map (set_banned false) (store st).
Proof.
  split.
  - remember (post_players_ban w user st) as out eqn:Hout. revert Hout.
    unfold_run. split_run; intros ->; cbn [snd store];
      first [ reflexivity | apply update_first_unflag ].
  - remember (post_players_unban w user st) as out eqn:Hout. revert Hout.
    unfold_run. split_run; intros ->; cbn [snd store];
      first [ reflexivity | apply update_first_unflag ].
Qed.

(** X13. Ban and unban of one user leave the records of every other
    user as they are, each at its place in the collection. *)
Theorem moderation_spares_other_users
  (w : World) (st : St) (user : string) (i : nat) (p : PlayerRecord) :
  nth_error (store st) i = Some p ->
  userId p <> user ->
  nth_error (store (snd (post_players_ban w user st))) i = Some p
  /\ nth_error (store (snd (post_players_unban w user st))) i = Some p.
Proof.
  intros Hi Hne. split.
  - remember (post_players_ban w user st) as out eqn:Hout. revert Hout.
    unfold_run. split_run; intros ->; cbn [snd store];
      first [ exact Hi
            | apply (update_first_others user true); assumption ].
  - remember (post_players_unban w user st) as out eqn:Hout. revert Hout.
    unfold_run. split_run; intros ->; cbn [snd store];
      first [ exact Hi
            | apply (update_first_others user false); assumption ].
Qed.

(** X14. With the administrator signed in and the database answering,
    banning a user twice leaves the store as banning once does, and an
    unban after a ban gives back the store from before the ban when the
    user's first record was not banned then. *)
Theorem ban_twice_and_round_trip
  (w : World) (st : St) (uid user : string) :
  authenticated (session st) = Some uid ->
  LICHESS_TEAM_ADMIN w = Some uid ->
  (forall b, db_ok w (FindOneAndUpdate (user_query user) b) = true) ->
  let banned_once := snd (post_players_ban w user st) in
  store (snd (post_players_ban w user banned_once)) = store banned_once
  /\ ((forall p, find (matches (user_query user)) (store st) = Some p ->
                 banned p = false) ->
      store (snd (post_players_unban w user banned_once)) = store st).
Proof.
  intros Hauth Hadm Hdb banned_once.
  destruct (moderation_run w st uid user true Hauth Hadm (Hdb true))
    as [Hs1 Hsess].
  cbn iota in Hs1, Hsess. fold banned_once in Hs1, Hsess.
  assert (Hauth1 : authenticated (session banned_once) = Some uid)
    by (rewrite Hsess; exact Hauth).
  split.
  - destruct (moderation_run w banned_once uid user true Hauth1 Hadm (Hdb true))
      as [Hs2 _].
    cbn iota in Hs2. rewrite Hs2, Hs1. apply update_first_twice.
  - intros Hfree.
    destruct (moderation_run w banned_once uid user false Hauth1 Hadm
                             (Hdb false)) as [Hs2 _].
    cbn iota in Hs2. rewrite Hs2, Hs1, update_first_twice.
    apply update_first_same. exact Hfree.
Qed.

(** X15. A ban reaches the first record of the user only: when the
    user's first record stands between records [l1] of other users and
    the records [l2] after it, the ban sets the flag of that record and
    every record of [l2] keeps its flag, further records of the same
    user included. *)
Theorem ban_flags_first_record_only
  (w : World) (st : St) (uid user : string)
  (l1 l2 : list PlayerRecord) (p : PlayerRecord) :
  authenticated (session st) = Some uid ->
  LICHESS_TEAM_ADMIN w = Some uid ->
  db_ok w (FindOneAndUpdate (user_query user) true) = true ->
  store st = l1 ++ p :: l2 ->
  (forall q, In q l1 -> userId q <> user) ->
  userId p = user ->
  store (snd (post_players_ban w user st)) = l1 ++ set_banned true p :: l2.
Proof.
  intros Hauth Hadm Hdb Hst Hl1 Hp.
  destruct (moderation_run w st uid user true Hauth Hadm Hdb) as [Hs _].
  cbn iota in Hs. rewrite Hs, Hst.
  apply update_first_decompose; assumption.
Qed.

(** X16. Banning a user who has no record changes nothing in the store;
    the kick is sent all the same and, when the platform answers it, the
    administrator is redirected to the verified list as after any ban. *)
Theorem ban_without_record
  (w : World) (st : St) (uid user : string) (k : Val) :
  authenticated (session st) = Some uid ->
  LICHESS_TEAM_ADMIN w = Some uid ->
  db_ok w (FindOneAndUpdate (user_query user) true) = true ->
  team_kick w user (s_authToken (session st)) = Ok k ->
  (forall q, In q (store st) -> userId q <> user) ->
  post_players_ban w user st
  = (Ok (Redirect 303 "/players/verified"),
     mkSt (store st) (session st)
          (log st ++ [ETeamKick user (s_authToken (session st));
                      EDb (FindOneAndUpdate (user_query user) true)])).
Proof.
  intros Hauth Hadm Hdb Hkick Hnone. apply is_admin_spec in Hadm.
  unfold user_query in Hdb.
  unfold post_players_ban, bind at 1, get_session. rewrite Hauth, Hadm.
  cbn [negb]. unfold_run. rewrite Hdb, Hkick. cbv beta iota.
  cbn [store session log].
  fold (user_query user). rewrite (update_first_no_match user true _ Hnone).
  rewrite <- app_assoc. reflexivity.
Qed.

(** ** Further properties: the admin views *)

Lemma get_players_run
  (w : World) (st : St) (uid : string) (roster : list string)
  (t : PlayerType) :
  authenticated (session st) = Some uid ->
  LICHESS_TEAM_ADMIN w = Some uid ->
  team_users w (s_authToken (session st)) = Ok (mkStream roster None) ->
  db_ok w (Find (mkQuery (Some (roster_cond t roster)) None (Some false)))
  = true ->
  get_players w t st
  = (Ok (Render ("players/" ++ type_name t ++ ".html.twig")%string
                (filter (listedb t roster) (store st))),
     mkSt (store st) (session st)
          ((log st ++ [ETeamUsers (s_authToken (session st))])
           ++ [EDb (Find (mkQuery (Some (roster_cond t roster)) None
                                  (Some false)))])).
Proof.
  intros Hauth Hadm Hteam Hdb. apply is_admin_spec in Hadm.
  unfold get_players, bind at 1, get_session. rewrite Hauth, Hadm.
  cbn [negb]. unfold try_catch, bind at 1.
  unfold getTeamMembers, bind at 1, emit, bind at 1, lift.
  cbn [store session log]. rewrite Hteam.
  unfold getUserIds, pipe_ndjson. cbn [failure members users ending].
  unfold ret at 1.
  unfold bind at 1. rewrite Player_find_run by exact Hdb.
  cbn [store session log].
  rewrite (filter_ext _ _ (roster_query_listedb t roster)).
  reflexivity.
Qed.

Lemma get_players_banned_run (w : World) (st : St) (uid : string) :
  authenticated (session st) = Some uid ->
  LICHESS_TEAM_ADMIN w = Some uid ->
  db_ok w (Find (mkQuery None None (Some true))) = true ->
  get_players_banned w st
  = (Ok (Render "players/banned.html.twig" (filter banned (store st))),
     mkSt (store st) (session st)
          (log st ++ [EDb (Find (mkQuery None None (Some true)))])).
Proof.
  intros Hauth Hadm Hdb. apply is_admin_spec in Hadm.
  unfold get_players_banned, bind at 1, get_session. rewrite Hauth, Hadm.
  cbn [negb]. unfold try_catch, bind at 1.
  rewrite Player_find_run by exact Hdb.
  assert (E : forall p, matches (mkQuery None None (Some true)) p = banned p).
  { intros p. unfold matches; simpl. destruct (banned p); reflexivity. }
  rewrite (filter_ext _ _ E). reflexivity.
Qed.

(** X17. For the administrator, the banned view renders exactly the
    stored records that are banned, as often and in the order they are
    stored; it asks the database once and the platform not at all, so
    the roster plays no part in it. *)
Theorem banned_view_exact (w : World) (st : St) (uid : string) :
  authenticated (session st) = Some uid ->
  LICHESS_TEAM_ADMIN w = Some uid ->
  db_ok w (Find (mkQuery None None (Some true))) = true ->
  get_players_banned w st
  = (Ok (Render "players/banned.html.twig" (filter banned (store st))),
     mkSt (store st) (session st)
          (log st ++ [EDb (Find (mkQuery None None (Some true)))]))
  /\ forall p, In p (filter banned (store st))
               <-> In p (store st) /\ banned p = true.
Proof.
  intros Hauth Hadm Hdb. split.
  - apply (get_players_banned_run w st uid); assumption.
  - intros p. apply filter_In.
Qed.

Lemma three_way_split (roster : list string) (l : list PlayerRecord) :
  Permutation (filter (listedb waiting roster) l
               ++ filter (listedb verified roster) l
               ++ filter banned l) l.
Proof.
  induction l as [ | p l IH ]; [ constructor | ].
  assert (Hw : listedb waiting roster p
               = negb (banned p) && negb (mem (userId p) roster))
    by reflexivity.
  assert (Hv : listedb verified roster p
               = negb (banned p) && mem (userId p) roster)
    by reflexivity.
  cbn [filter]. rewrite Hw, Hv.
  destruct (banned p), (mem (userId p) roster); cbn [negb andb].
  - rewrite app_assoc. apply Permutation_sym, Permutation_cons_app.
    rewrite <- app_assoc. apply Permutation_sym, IH.
  - rewrite app_assoc. apply Permutation_sym, Permutation_cons_app.
    rewrite <- app_assoc. apply Permutation_sym, IH.
  - apply Permutation_sym, Permutation_cons_app.
    apply Permutation_sym, IH.
  - constructor. exact IH.
Qed.

(** X18. For the administrator, with the roster delivered and the
    database answering, the waiting, the verified and the banned view
    together list every stored record exactly once: strung together,
    the three lists are a permutation of the store. *)
Theorem views_partition_store
  (w : World) (st : St) (uid : string) (roster : list string) :
  authenticated (session st) = Some uid ->
  LICHESS_TEAM_ADMIN w = Some uid ->
  team_users w (s_authToken (session st)) = Ok (mkStream roster None) ->
  (forall q, db_ok w (Find q) = true) ->
  exists lw lv lb,
    fst (get_players w waiting st)
    = Ok (Render "players/waiting.html.twig" lw)
    /\ fst (get_players w verified st)
       = Ok (Render "players/verified.html.twig" lv)
    /\ fst (get_players_banned w st)
       = Ok (Render "players/banned.html.twig" lb)
    /\ Permutation (lw ++ lv ++ lb) (store st).
Proof.
  intros Hauth Hadm Hteam Hdb.
  exists (filter (listedb waiting roster) (store st)),
         (filter (listedb verified roster) (store st)),
         (filter banned (store st)).
  rewrite (get_players_run w st uid roster waiting),
          (get_players_run w st uid roster verified),
          (get_players_banned_run w st uid); auto.
  repeat (split; [ reflexivity | ]). apply three_way_split.
Qed.

(** X19. What the waiting and the verified list do when the roster
    cannot be had.  When the roster request is rejected, or a line of
    its body is no JSON, they end on the error page without asking the
    database.  When the body of the request breaks off, the failure
    does not reach the parser the body is piped into: the lists never
    respond, and the database is not asked either. *)
Theorem roster_failure_outcomes
  (w : World) (st : St) (uid : string) (t : PlayerType) :
  authenticated (session st) = Some uid ->
  LICHESS_TEAM_ADMIN w = Some uid ->
  let st1 := mkSt (store st) (session st)
                  (log st ++ [ETeamUsers (s_authToken (session st))]) in
  (((exists e, team_users w (s_authToken (session st)) = Throw e)
    \/ (exists ms e, team_users w (s_authToken (session st))
                     = Ok (mkStream ms (Some (ParseError e))))) ->
   get_players w t st = (Ok (Redirect 303 "/messages/error"), st1))
  /\ ((exists ms e, team_users w (s_authToken (session st))
                    = Ok (mkStream ms (Some (BodyError e)))) ->
      get_players w t st = (Pending, st1)).
Proof.
  intros Hauth Hadm st1. subst st1. apply is_admin_spec in Hadm.
  split.
  - intros Hfail.
    unfold get_players, bind at 1, get_session. rewrite Hauth, Hadm.
    cbn [negb]. unfold_run.
    destruct Hfail as [ [e He] | [ms [e He]] ]; rewrite He; reflexivity.
  - intros [ms [e He]].
    unfold get_players, bind at 1, get_session. rewrite Hauth, Hadm.
    cbn [negb]. unfold_run. rewrite He. reflexivity.
Qed.

Lemma listedb_same_members (t : PlayerType) (r1 r2 : list string) :
  (forall u, In u r1 <-> In u r2) ->
  forall p, listedb t r1 p = listedb t r2 p.
Proof.
  intros H p.
  assert (E : mem (userId p) r1 = mem (userId p) r2).
  { destruct (mem (userId p) r2) eqn:E2.
    - apply mem_In, H, mem_In, E2.
    - apply not_true_is_false. intros E1.
      apply mem_In, H, mem_In in E1. congruence. }
  unfold listedb. destruct t; rewrite E; reflexivity.
Qed.

(** X20. The views depend on who is in the roster, not on how the
    platform streams it: a roster with repeated or reordered ids gives
    the lists of any other roster with the same members. *)
Theorem views_depend_on_members_only
  (w : World) (st : St) (uid : string) (streamed roster : list string)
  (t : PlayerType) :
  authenticated (session st) = Some uid ->
  LICHESS_TEAM_ADMIN w = Some uid ->
  team_users w (s_authToken (session st)) = Ok (mkStream streamed None) ->
  (forall q, db_ok w (Find q) = true) ->
  (forall u, In u streamed <-> In u roster) ->
  fst (get_players w t st)
  = Ok (Render ("players/" ++ type_name t ++ ".html.twig")%string
               (filter (listedb t roster) (store st))).
Proof.
  intros Hauth Hadm Hteam Hdb Hsame.
  rewrite (get_players_run w st uid streamed t); auto.
  cbn [fst]. rewrite (filter_ext _ _ (listedb_same_members t _ _ Hsame)).
  reflexivity.
Qed.

(** ** Further properties: the verification page and how requests compose *)

Lemma Player_findOne_run (w : World) q st :
  db_ok w (Find q) = true ->
  Player_findOne w q st
  = (Ok (find (matches q) (store st)),
     mkSt (store st) (session st) (log st ++ [EDb (Find q)])).
Proof.
  intros Hdb. unfold Player_findOne, db, bind, emit, get_store, ret; simpl.
  rewrite Hdb. reflexivity.
Qed.

Lemma get_verify_gov_run (w : World) (st : St) (uid : string) (fullYear : Z) :
  authenticated (session st) = Some uid ->
  db_ok w (Find (user_query uid)) = true ->
  let st1 := mkSt (store st) (session st)
                  (log st ++ [EDb (Find (user_query uid))]) in
  let st2 := mkSt (store st) (session st)
                  ((log st ++ [EDb (Find (user_query uid))])
                   ++ [ETeamJoin (s_authToken (session st))]) in
  get_verify_gov w fullYear st
  = match find (matches (user_query uid)) (store st) with
    | None => (Ok (Form "verify/gov.html.twig" (fullYear - 7)), st1)
    | Some p =>
        if banned p
        then (Ok (Answer (Redirect 303 "/messages/banned")), st1)
        else
          match team_join w (s_authToken (session st)) with
          | Ok ok =>
              (Ok (Answer (Redirect 303 (if truthy ok
                                         then "/messages/success"
                                         else "/messages/error"))), st2)
          | Throw _ => (Ok (Answer (Redirect 303 "/messages/error")), st2)
          end
    end.
Proof.
  intros Hauth Hdb st1 st2. subst st1 st2.
  unfold get_verify_gov, bind at 1, get_session. rewrite Hauth.
  unfold try_catch, bind at 1. fold (user_query uid).
  rewrite Player_findOne_run by exact Hdb.
  destruct (find (matches (user_query uid)) (store st)) as [ p | ];
    [ | reflexivity ].
  destruct (banned p); [ reflexivity | ].
  unfold bind at 1. rewrite joinTeam_run. cbn [store session log].
  destruct (team_join w (s_authToken (session st))) as [ ok | e ];
    [ | reflexivity ].
  destruct (truthy ok); reflexivity.
Qed.

Lemma find_user_none (u : string) (l : list PlayerRecord) :
  (forall q, In q l -> userId q <> u) ->
  find (matches (user_query u)) l = None.
Proof.
  intros H. induction l as [ | q l IH ]; simpl; [ reflexivity | ].
  rewrite matches_user_query.
  destruct (String.eqb_spec (userId q) u) as [ Hq | Hq ].
  - exfalso. apply (H q); [ left; reflexivity | exact Hq ].
  - apply IH. intros r Hr. apply H. right. exact Hr.
Qed.

Lemma find_user_some (u : string) (l : list PlayerRecord) :
  (exists q, In q l /\ userId q = u) ->
  exists p, find (matches (user_query u)) l = Some p
            /\ In p l /\ userId p = u.
Proof.
  intros [q [Hin Hq]]. induction l as [ | r l IH ]; [ destruct Hin | ].
  simpl. rewrite matches_user_query.
  destruct (String.eqb_spec (userId r) u) as [ Hr | Hr ].
  - exists r. split; [ reflexivity | split; [ left; reflexivity | exact Hr ] ].
  - destruct Hin as [ -> | Hin ]; [ contradiction | ].
    destruct (IH Hin) as [p [Hf [Hp Hu]]].
    exists p. split; [ exact Hf | split; [ right; exact Hp | exact Hu ] ].
Qed.

(** X21. A signed-in user without any record gets the verification
    form, with the current year less seven as the year of birth on
    offer; the page asks the database once and sends nothing to the
    platform. *)
Theorem verify_page_shows_form
  (w : World) (st : St) (uid : string) (fullYear : Z) :
  authenticated (session st) = Some uid ->
  db_ok w (Find (user_query uid)) = true ->
  (forall q, In q (store st) -> userId q <> uid) ->
  get_verify_gov w fullYear st
  = (Ok (Form "verify/gov.html.twig" (fullYear - 7)),
     mkSt (store st) (session st)
          (log st ++ [EDb (Find (user_query uid))])).
Proof.
  intros Hauth Hdb Hnone.
  rewrite (get_verify_gov_run w st uid fullYear Hauth Hdb).
  rewrite (find_user_none uid _ Hnone). reflexivity.
Qed.

Lemma post_verify_gov_success_run
  (w : World) (st : St) (body : VerifyBody) (uid : string) (status ok : Val)
  (y : option float) :
  authenticated (session st) = Some uid ->
  gov_answer w body = Ok status ->
  truthy status = true ->
  (forall p, In p (store st) -> banned p = true ->
             govIdSignature p <> Sha1.sha1_hex (b_id body)) ->
  team_join w (s_authToken (session st)) = Ok ok ->
  truthy ok = true ->
  castNumber w (b_year body) = Ok y ->
  (forall op, db_ok w op = true) ->
  let idSig := Sha1.sha1_hex (b_id body) in
  let r := new_player uid (session st) body y idSig false in
  post_verify_gov w body st
  = (Ok (Redirect 303 "/messages/success"),
     mkSt (store st ++ [r]) (session st)
          ((((log st ++ gov_events w body) ++ [EDb (Find (sig_query idSig))])
            ++ [ETeamJoin (s_authToken (session st))])
           ++ [EDb (Create r)])).
Proof.
  intros Hauth Hgov Hst Hnone Hjoin Hok Hcast Hdb idSig r. subst r.
  unfold post_verify_gov, bind at 1, get_session. rewrite Hauth.
  unfold try_catch, bind at 1. rewrite verifyUserGovId_run, Hgov, Hst.
  cbn [negb]. unfold bind at 1.
  rewrite Player_find_run by apply Hdb.
  cbn [store session log]. fold idSig. fold (sig_query idSig).
  rewrite (no_banned_match idSig (store st) Hnone).
  cbn [List.length Nat.ltb Nat.leb].
  unfold bind at 1. rewrite joinTeam_run. cbn [store session log].
  rewrite Hjoin, Hok. cbn [negb].
  unfold bind at 1.
  rewrite (Player_create_run w (new_doc uid (session st) body idSig false)
             y _ Hcast (Hdb _)).
  reflexivity.
Qed.

(** X22. After a submission that ended on the success page, the same
    user no longer gets the form: as long as none of the user's earlier
    records is banned, the verification page asks the platform to join
    the team again and, the platform answering as before, redirects to
    the success page.  (The submission ended on the success page: its
    year was one the schema casts.) *)
Theorem verified_user_rejoins
  (w : World) (st : St) (body : VerifyBody) (uid : string) (status ok : Val)
  (y : option float) (fullYear : Z) :
  authenticated (session st) = Some uid ->
  gov_answer w body = Ok status ->
  truthy status = true ->
  (forall p, In p (store st) -> banned p = true ->
             govIdSignature p <> Sha1.sha1_hex (b_id body)) ->
  team_join w (s_authToken (session st)) = Ok ok ->
  truthy ok = true ->
  castNumber w (b_year body) = Ok y ->
  (forall op, db_ok w op = true) ->
  (forall p, In p (store st) -> userId p = uid -> banned p = false) ->
  let st1 := snd (post_verify_gov w body st) in
  get_verify_gov w fullYear st1
  = (Ok (Answer (Redirect 303 "/messages/success")),
     mkSt (store st1) (session st1)
          (log st1 ++ [EDb (Find (user_query uid));
                       ETeamJoin (s_authToken (session st))])).
Proof.
  intros Hauth Hgov Hst Hnone Hjoin Hok Hcast Hdb Hfree st1.
  pose proof (post_verify_gov_success_run w st body uid status ok y
                Hauth Hgov Hst Hnone Hjoin Hok Hcast Hdb) as Hrun.
  cbv zeta in Hrun.
  set (r := new_player uid (session st) body y
                       (Sha1.sha1_hex (b_id body)) false) in *.
  assert (Hst1 : store st1 = store st ++ [r] /\ session st1 = session st).
  { subst st1. rewrite Hrun. split; reflexivity. }
  destruct Hst1 as [Hstore Hsess].
  assert (Hauth1 : authenticated (session st1) = Some uid)
    by (rewrite Hsess; exact Hauth).
  rewrite (get_verify_gov_run w st1 uid fullYear Hauth1 (Hdb _)).
  destruct (find_user_some uid (store st1)) as [p [Hf [Hp Hu]]].
  { exists r. split; [ rewrite Hstore; apply in_or_app; right; left;
                       reflexivity | reflexivity ]. }
  rewrite Hf.
  assert (Hb : banned p = false).
  { rewrite Hstore in Hp. apply in_app_or in Hp.
    destruct Hp as [ Hp | [ <- | [] ] ]; [ apply Hfree; assumption | reflexivity ]. }
  rewrite Hb, Hsess, Hjoin, Hok. rewrite <- app_assoc. reflexivity.
Qed.

Lemma update_first_hit (q : Query) (b : bool) (l : list PlayerRecord)
      (p : PlayerRecord) :
  find (matches q) l = Some p -> In (set_banned b p) (update_first q b l).
Proof.
  induction l as [ | r l IH ]; simpl; [ discriminate | ].
  destruct (matches q r).
  - intros E. injection E as ->. left. reflexivity.
  - intros E. right. apply IH. exact E.
Qed.

Lemma update_first_origin (q : Query) (b : bool) (l : list PlayerRecord)
      (x : PlayerRecord) :
  In x (update_first q b l) ->
  exists y, In y l /\ userId x = userId y
            /\ govIdSignature x = govIdSignature y.
Proof.
  induction l as [ | r l IH ]; simpl; [ intros [] | ].
  destruct (matches q r).
  - intros [ <- | Hin ].
    + exists r. split; [ left; reflexivity | split; reflexivity ].
    + exists x. split; [ right; exact Hin | split; reflexivity ].
  - intros [ <- | Hin ].
    + exists r. split; [ left; reflexivity | split; reflexivity ].
    + destruct (IH Hin) as [y [Hy Hxy]].
      exists y. split; [ right; exact Hy | exact Hxy ].
Qed.

(** X23. Moderation shows on the user's next visit.  After the
    administrator banned a user who has a record, that user's
    verification page redirects to the banned page without asking the
    platform; after an unban it asks the platform to join the team
    again. *)
Theorem moderation_shows_on_next_visit
  (w : World) (st : St) (admin user : string) (sess : Session)
  (fullYear : Z) :
  authenticated (session st) = Some admin ->
  LICHESS_TEAM_ADMIN w = Some admin ->
  (forall op, db_ok w op = true) ->
  (exists q, In q (store st) /\ userId q = user) ->
  authenticated sess = Some user ->
  let st1 := with_session (snd (post_players_ban w user st)) sess in
  let st2 := with_session (snd (post_players_unban w user st)) sess in
  get_verify_gov w fullYear st1
  = (Ok (Answer (Redirect 303 "/messages/banned")),
     mkSt (store st1) sess (log st1 ++ [EDb (Find (user_query user))]))
  /\ snd (get_verify_gov w fullYear st2)
     = mkSt (store st2) sess
            (log st2 ++ [EDb (Find (user_query user));
                         ETeamJoin (s_authToken sess)]).
Proof.
  intros Hauth Hadm Hdb Hrec Huser st1 st2.
  destruct (find_user_some user (store st) Hrec) as [p [Hf _]].
  split.
  - destruct (moderation_run w st admin user true Hauth Hadm (Hdb _))
      as [Hs _].
    cbn iota in Hs.
    rewrite (get_verify_gov_run w st1 user fullYear Huser (Hdb _)).
    subst st1. unfold with_session. cbn [store session log].
    rewrite Hs, update_first_flag, Hf. reflexivity.
  - destruct (moderation_run w st admin user false Hauth Hadm (Hdb _))
      as [Hs _].
    cbn iota in Hs.
    rewrite (get_verify_gov_run w st2 user fullYear Huser (Hdb _)).
    subst st2. unfold with_session. cbn [store session log].
    rewrite Hs, update_first_flag, Hf. cbn [option_map set_banned banned].
    rewrite <- app_assoc.
    destruct (team_join w (s_authToken sess)); reflexivity.
Qed.

Lemma post_verify_gov_alias_run
  (w : World) (st : St) (body : VerifyBody) (uid : string) (status : Val) :
  authenticated (session st) = Some uid ->
  gov_answer w body = Ok status ->
  truthy status = true ->
  (exists p, In p (store st) /\ banned p = true
             /\ govIdSignature p = Sha1.sha1_hex (b_id body)) ->
  (forall p, In p (store st) -> banned p = true ->
             govIdSignature p = Sha1.sha1_hex (b_id body) ->
             userId p <> uid) ->
  (forall op, db_ok w op = true) ->
  let idSig := Sha1.sha1_hex (b_id body) in
  let st1 := mkSt (store st) (session st)
                  ((log st ++ gov_events w body)
                   ++ [EDb (Find (sig_query idSig))]) in
  post_verify_gov w body st
  = match castNumber w (b_year body) with
    | Ok y =>
        let r := new_player uid (session st) body y idSig true in
        (Ok (Redirect 303 "/messages/banned"),
         mkSt (store st ++ [r]) (session st) (log st1 ++ [EDb (Create r)]))
    | Throw _ => (Ok (Redirect 303 "/messages/error"), st1)
    end.
Proof.
  intros Hauth Hgov Hst Hsome Hother Hdb idSig st1. subst st1.
  apply banned_match_exists in Hsome. fold idSig in Hsome, Hother.
  assert (Hown :
    existsb (fun bannedPlayer => userId bannedPlayer =? uid)%string
            (filter (matches (sig_query idSig)) (store st)) = false).
  { apply not_true_is_false. intros E. apply own_banned_match in E.
    destruct E as [p [Hin [Hb [Hs Hu]]]]. exact (Hother p Hin Hb Hs Hu). }
  unfold post_verify_gov, bind at 1, get_session. rewrite Hauth.
  unfold try_catch, bind at 1. rewrite verifyUserGovId_run, Hgov, Hst.
  cbn [negb]. unfold bind at 1.
  rewrite Player_find_run by apply Hdb.
  cbn [store session log]. fold idSig. fold (sig_query idSig).
  rewrite (length_pos_nonempty _ Hsome), Hown.
  unfold bind at 1. cbn [negb].
  destruct (castNumber w (b_year body)) as [ y | e ] eqn:Hcast.
  - rewrite (Player_create_run w (new_doc uid (session st) body idSig true)
               y _ Hcast (Hdb _)).
    reflexivity.
  - rewrite (Player_create_uncast w (new_doc uid (session st) body idSig true)
               e _ Hcast).
    reflexivity.
Qed.

(** X24. A ban follows the identity to other accounts.  After the
    administrator banned a user whose first record carries the
    signature of an id, a submission of that id from another account,
    which has no record with that signature, sends no join request.
    When the schema casts the submitted year, the submission appends a
    banned record for that account and ends on the banned page; when
    the schema refuses the year, it appends nothing and ends on the
    error page. *)
Theorem ban_reaches_other_accounts
  (w : World) (st : St) (admin user alias : string) (sess : Session)
  (body : VerifyBody) (status : Val) (p : PlayerRecord) :
  authenticated (session st) = Some admin ->
  LICHESS_TEAM_ADMIN w = Some admin ->
  (forall op, db_ok w op = true) ->
  find (matches (user_query user)) (store st) = Some p ->
  govIdSignature p = Sha1.sha1_hex (b_id body) ->
  authenticated sess = Some alias ->
  (forall q, In q (store st) -> userId q = alias ->
             govIdSignature q <> Sha1.sha1_hex (b_id body)) ->
  gov_answer w body = Ok status ->
  truthy status = true ->
  let st1 := with_session (snd (post_players_ban w user st)) sess in
  let idSig := Sha1.sha1_hex (b_id body) in
  let looked_up := (log st1 ++ gov_events w body)
                   ++ [EDb (Find (sig_query idSig))] in
  (forall y, castNumber w (b_year body) = Ok y ->
     let r := new_player alias sess body y idSig true in
     post_verify_gov w body st1
     = (Ok (Redirect 303 "/messages/banned"),
        mkSt (store st1 ++ [r]) sess (looked_up ++ [EDb (Create r)])))
  /\ (forall e, castNumber w (b_year body) = Throw e ->
       post_verify_gov w body st1
       = (Ok (Redirect 303 "/messages/error"),
          mkSt (store st1) sess looked_up)).
Proof.
  intros Hauth Hadm Hdb Hf Hsig Halias Hfresh Hgov Hst st1 idSig looked_up.
  destruct (moderation_run w st admin user true Hauth Hadm (Hdb _))
    as [Hs _].
  cbn iota in Hs.
  assert (Hstore : store st1 = update_first (user_query user) true (store st))
    by exact Hs.
  assert (Hrun := post_verify_gov_alias_run w st1 body alias status
                    Halias Hgov Hst).
  cbv zeta in Hrun. rewrite Hrun; clear Hrun; try assumption.
  - split.
    + intros y Hy. rewrite Hy. reflexivity.
    + intros e He. rewrite He. reflexivity.
  - exists (set_banned true p). rewrite Hstore.
    split; [ apply update_first_hit; exact Hf | ].
    split; [ reflexivity | exact Hsig ].
  - intros x Hx _ Hxs Hxu. rewrite Hstore in Hx.
    apply update_first_origin in Hx. destruct Hx as [z [Hz [Hu Hg]]].
    apply (Hfresh z Hz); congruence.
Qed.

(** X25. Nothing keeps a verified user from being recorded twice: a
    submission that ended on the success page, sent again, ends on the
    success page again and appends the same record a second time.
    (The submission ended on the success page: its year was one the
    schema casts.) *)
Theorem reverification_duplicates_record
  (w : World) (st : St) (body : VerifyBody) (uid : string) (status ok : Val)
  (y : option float) :
  authenticated (session st) = Some uid ->
  gov_answer w body = Ok status ->
  truthy status = true ->
  (forall p, In p (store st) -> banned p = true ->
             govIdSignature p <> Sha1.sha1_hex (b_id body)) ->
  team_join w (s_authToken (session st)) = Ok ok ->
  truthy ok = true ->
  castNumber w (b_year body) = Ok y ->
  (forall op, db_ok w op = true) ->
  let st1 := snd (post_verify_gov w body st) in
  let r := new_player uid (session st) body y
                      (Sha1.sha1_hex (b_id body)) false in
  fst (post_verify_gov w body st1) = Ok (Redirect 303 "/messages/success")
  /\ store (snd (post_verify_gov w body st1)) = store st ++ [r; r].
Proof.
  intros Hauth Hgov Hst Hnone Hjoin Hok Hcast Hdb st1 r.
  pose proof (post_verify_gov_success_run w st body uid status ok y
                Hauth Hgov Hst Hnone Hjoin Hok Hcast Hdb) as Hrun.
  cbv zeta in Hrun. fold r in Hrun.
  assert (Hst1 : store st1 = store st ++ [r] /\ session st1 = session st).
  { subst st1. rewrite Hrun. split; reflexivity. }
  destruct Hst1 as [Hstore Hsess].
  assert (Hnone1 : forall p, In p (store st1) -> banned p = true ->
                     govIdSignature p <> Sha1.sha1_hex (b_id body)).
  { intros p Hp Hb. rewrite Hstore in Hp. apply in_app_or in Hp.
    destruct Hp as [ Hp | [ <- | [] ] ];
      [ apply Hnone; assumption | discriminate Hb ]. }
  assert (Hauth1 : authenticated (session st1) = Some uid)
    by (rewrite Hsess; exact Hauth).
  assert (Hjoin1 : team_join w (s_authToken (session st1)) = Ok ok)
    by (rewrite Hsess; exact Hjoin).
  rewrite (post_verify_gov_success_run w st1 body uid status ok y
             Hauth1 Hgov Hst Hnone1 Hjoin1 Hok Hcast Hdb).
  cbn [fst snd store]. split; [ reflexivity | ].
  rewrite Hstore, Hsess, <- app_assoc. reflexivity.
Qed.

(** X26. The messages route renders one of three fixed pages and no
    other template: the success, banned or error page when the
    parameter is the page's name, and a 302 redirect to the home page
    for any other parameter. *)
Theorem messages_render_fixed_pages (messageType : string) :
  (messageType = "success"
   /\ get_messages messageType = View "messages/success.html.twig")
  \/ (messageType = "banned"
      /\ get_messages messageType = View "messages/banned.html.twig")
  \/ (messageType = "error"
      /\ get_messages messageType = View "messages/error.html.twig")
  \/ (messageType <> "success" /\ messageType <> "banned"
      /\ messageType <> "error"
      /\ get_messages messageType = Answer (Redirect 302 "/")).
Proof.
  unfold get_messages. cbn [existsb].
  destruct (String.eqb_spec messageType "success") as [ -> | H1 ];
    [ left; split; reflexivity | ].
  destruct (String.eqb_spec messageType "banned") as [ -> | H2 ];
    [ right; left; split; reflexivity | ].
  destruct (String.eqb_spec messageType "error") as [ -> | H3 ];
    [ right; right; left; split; reflexivity | ].
  right; right; right. repeat split; assumption.
Qed.

(** ** Runs of the further properties on sample inputs *)

(** A visitor who never signed in. *)
Lemma verify_requires_login_witness :
  let st := mkSt others anonymous [] in
  post_verify_gov Sample.calm Sample.body8 st
  = (Ok (Redirect 303 "/auth?returnUrl=/verify/gov"), st)
  /\ get_verify_gov Sample.calm 2026 st
     = (Ok (Answer (Redirect 303 "/auth?returnUrl=/verify/gov")), st).
Proof.
  apply (verify_requires_login Sample.calm (mkSt others anonymous [])
           Sample.body8 2026).
  reflexivity.
Defined.

(** The same visitor on the admin routes. *)
Lemma admin_routes_require_login_witness :
  let st := mkSt others anonymous [] in
  get_players Sample.calm verified st
  = (Ok (Redirect 303 ("/auth?returnUrl=/players/" ++ type_name verified)%string),
     st)
  /\ get_players_banned Sample.calm st
     = (Ok (Redirect 303 "/auth?returnUrl=/players/banned"), st)
  /\ post_players_ban Sample.calm "cy" st
     = (Ok (Redirect 303 "/auth?returnUrl=/players/verified"), st)
  /\ post_players_unban Sample.calm "cy" st
     = (Ok (Redirect 303 "/auth?returnUrl=/players/banned"), st).
Proof.
  apply (admin_routes_require_login Sample.calm (mkSt others anonymous [])
           "cy" verified).
  reflexivity.
Defined.

(** A submission that goes through, read from its answer. *)
Lemma verify_answer_tells_store_witness :
  exists uid y,
    authenticated (Sample.user_session "ann") = Some uid
    /\ store (snd (post_verify_gov Sample.calm Sample.body8
                     (Sample.state_of others "ann")))
       = others ++ [new_player uid (Sample.user_session "ann") Sample.body8
                               y (Sha1.sha1_hex "12345678") false]
    /\ In (ETeamJoin (Some "tok"))
          (log (snd (post_verify_gov Sample.calm Sample.body8
                       (Sample.state_of others "ann")))).
Proof.
  apply (proj1 (verify_answer_tells_store Sample.calm Sample.body8
                  (Sample.state_of others "ann"))).
  vm_compute. reflexivity.
Defined.

(** The sample id banned under another account. *)
Lemma banned_identity_never_joined_witness :
  exists evs,
    log (snd (post_verify_gov Sample.calm Sample.body8
                (Sample.state_of [Sample.player "zed" sig8 true] "ann")))
    = [] ++ evs
    /\ forall tok, ~ In (ETeamJoin tok) evs.
Proof.
  apply (banned_identity_never_joined Sample.calm Sample.body8
           (Sample.state_of [Sample.player "zed" sig8 true] "ann")).
  exists (Sample.player "zed" sig8 true).
  split; [ left; reflexivity | split; [ reflexivity | ] ].
  vm_compute. reflexivity.
Defined.

(** An accepted id while the platform refuses the join. *)
Lemma join_refused_writes_nothing_witness :
  post_verify_gov join_refusing Sample.body8 (Sample.state_of others "ann")
  = (Ok (Redirect 303 "/messages/error"),
     mkSt others (Sample.user_session "ann")
          ([] ++ gov_events join_refusing Sample.body8
              ++ [EDb (Find (sig_query (Sha1.sha1_hex "12345678")));
                  ETeamJoin (Some "tok")])).
Proof.
  apply (join_refused_writes_nothing join_refusing
           (Sample.state_of others "ann") Sample.body8 "ann"
           (Boolean true) (Boolean false)).
  - reflexivity.
  - reflexivity.
  - reflexivity.
  - intros p [ <- | [ <- | [] ] ] Hb E.
    + vm_compute in E. discriminate E.
    + discriminate Hb.
  - reflexivity.
  - reflexivity.
  - reflexivity.
Defined.


(** An id with two letters before eight digits: the match is at index 5. *)
Lemma mask_changes_five_digits_witness :
  exists i,
    3 <= i /\ i + 5 <= String.length "ab12345678"
    /\ (forall j, i <= j < i + 5 ->
          get j (Mask.mask "ab12345678") = Some "*"%char
          /\ exists c, get j "ab12345678" = Some c /\ Mask.is_digit c = true)
    /\ (forall j, i - 3 <= j < i ->
          exists c, get j (Mask.mask "ab12345678") = Some c
                    /\ get j "ab12345678" = Some c
                    /\ Mask.is_digit c = true)
    /\ (forall j, j < i \/ i + 5 <= j ->
          get j (Mask.mask "ab12345678") = get j "ab12345678")
    /\ (forall k, k + 3 < i -> ~ digit_run "ab12345678" k).
Proof.
  apply (mask_changes_five_digits "ab12345678").
  intros E. vm_compute in E. discriminate E.
Defined.

(** Ban and unban of one member next to the record of another. *)
Lemma moderation_spares_other_users_witness :
  nth_error (store (snd (post_players_ban Sample.calm "ann"
                           (Sample.state_of roster_store "boss")))) 1
  = Some (Sample.player "cy" "s2" false)
  /\ nth_error (store (snd (post_players_unban Sample.calm "ann"
                              (Sample.state_of roster_store "boss")))) 1
     = Some (Sample.player "cy" "s2" false).
Proof.
  apply (moderation_spares_other_users Sample.calm
           (Sample.state_of roster_store "boss") "ann" 1
           (Sample.player "cy" "s2" false)).
  - reflexivity.
  - discriminate.
Defined.

(** A member who is not banned, banned twice, and banned then unbanned. *)
Lemma ban_twice_and_round_trip_witness :
  let st := Sample.state_of roster_store "boss" in
  let banned_once := snd (post_players_ban Sample.calm "ann" st) in
  store (snd (post_players_ban Sample.calm "ann" banned_once))
  = store banned_once
  /\ store (snd (post_players_unban Sample.calm "ann" banned_once))
     = roster_store.
Proof.
  destruct (ban_twice_and_round_trip Sample.calm
              (Sample.state_of roster_store "boss") "boss" "ann"
              eq_refl eq_refl (fun _ => eq_refl)) as [H1 H2].
  split; [ exact H1 | apply H2 ].
  intros p E. vm_compute in E. injection E as <-. reflexivity.
Defined.

(** A user recorded twice: the ban reaches the first record only. *)
Lemma ban_flags_first_record_only_witness :
  store (snd (post_players_ban Sample.calm "ann"
                (Sample.state_of twice_store "boss")))
  = [Sample.player "cy" "s2" false]
    ++ set_banned true (Sample.player "ann" sig8 false)
    :: [Sample.player "ann" sig8 false].
Proof.
  apply (ban_flags_first_record_only Sample.calm
           (Sample.state_of twice_store "boss") "boss" "ann"
           [Sample.player "cy" "s2" false] [Sample.player "ann" sig8 false]
           (Sample.player "ann" sig8 false)).
  - reflexivity.
  - reflexivity.
  - reflexivity.
  - reflexivity.
  - intros q [ <- | [] ]. discriminate.
  - reflexivity.
Defined.

(** A ban of somebody the store does not know. *)
Lemma ban_without_record_witness :
  post_players_ban Sample.calm "nobody" (Sample.state_of roster_store "boss")
  = (Ok (Redirect 303 "/players/verified"),
     mkSt roster_store (Sample.user_session "boss")
          ([] ++ [ETeamKick "nobody" (Some "tok");
                  EDb (FindOneAndUpdate (user_query "nobody") true)])).
Proof.
  apply (ban_without_record Sample.calm (Sample.state_of roster_store "boss")
           "boss" "nobody" (Boolean true)).
  - reflexivity.
  - reflexivity.
  - reflexivity.
  - reflexivity.
  - intros q [ <- | [ <- | [ <- | [ <- | [] ]]]]; discriminate.
Defined.

(** The banned view over the store of four records. *)
Lemma banned_view_exact_witness :
  get_players_banned Sample.calm (Sample.state_of roster_store "boss")
  = (Ok (Render "players/banned.html.twig" (filter banned roster_store)),
     mkSt roster_store (Sample.user_session "boss")
          ([] ++ [EDb (Find (mkQuery None None (Some true)))]))
  /\ forall p, In p (filter banned roster_store)
               <-> In p roster_store /\ banned p = true.
Proof.
  apply (banned_view_exact Sample.calm (Sample.state_of roster_store "boss")
           "boss"); reflexivity.
Defined.

(** The three views over the store of four records. *)
Lemma views_partition_store_witness :
  exists lw lv lb,
    fst (get_players Sample.calm waiting (Sample.state_of roster_store "boss"))
    = Ok (Render "players/waiting.html.twig" lw)
    /\ fst (get_players Sample.calm verified
              (Sample.state_of roster_store "boss"))
       = Ok (Render "players/verified.html.twig" lv)
    /\ fst (get_players_banned Sample.calm
              (Sample.state_of roster_store "boss"))
       = Ok (Render "players/banned.html.twig" lb)
    /\ Permutation (lw ++ lv ++ lb) roster_store.
Proof.
  apply (views_partition_store Sample.calm
           (Sample.state_of roster_store "boss") "boss" ["ann"; "bob"]).
  - reflexivity.
  - reflexivity.
  - reflexivity.
  - intros q. reflexivity.
Defined.

(** The member stream breaks off: the administrator gets no answer. *)
Lemma roster_failure_outcomes_witness :
  get_players roster_broken waiting (Sample.state_of roster_store "boss")
  = (Pending,
     mkSt roster_store (Sample.user_session "boss")
          ([] ++ [ETeamUsers (Some "tok")]))
  /\ get_players roster_garbled waiting (Sample.state_of roster_store "boss")
     = (Ok (Redirect 303 "/messages/error"),
        mkSt roster_store (Sample.user_session "boss")
             ([] ++ [ETeamUsers (Some "tok")])).
Proof.
  split.
  - apply (proj2 (roster_failure_outcomes roster_broken
                    (Sample.state_of roster_store "boss") "boss" waiting
                    eq_refl eq_refl)).
    exists ["ann"], "aborted". reflexivity.
  - apply (proj1 (roster_failure_outcomes roster_garbled
                    (Sample.state_of roster_store "boss") "boss" waiting
                    eq_refl eq_refl)).
    right. exists ["ann"], "Could not parse row". reflexivity.
Defined.

(** The streamed roster against one with its ids repeated and swapped. *)
Lemma views_depend_on_members_only_witness :
  fst (get_players Sample.calm verified (Sample.state_of roster_store "boss"))
  = Ok (Render ("players/" ++ type_name verified ++ ".html.twig")%string
               (filter (listedb verified ["bob"; "ann"; "bob"]) roster_store)).
Proof.
  apply (views_depend_on_members_only Sample.calm
           (Sample.state_of roster_store "boss") "boss"
           ["ann"; "bob"] ["bob"; "ann"; "bob"] verified).
  - reflexivity.
  - reflexivity.
  - reflexivity.
  - intros q. reflexivity.
  - intros u. simpl. tauto.
Defined.

(** A signed-in user the store does not know, in the year 2026. *)
Lemma verify_page_shows_form_witness :
  get_verify_gov Sample.calm 2026 (Sample.state_of others "ann")
  = (Ok (Form "verify/gov.html.twig" (2026 - 7)),
     mkSt others (Sample.user_session "ann")
          ([] ++ [EDb (Find (user_query "ann"))])).
Proof.
  apply (verify_page_shows_form Sample.calm (Sample.state_of others "ann")
           "ann" 2026).
  - reflexivity.
  - reflexivity.
  - intros q [ <- | [ <- | [] ] ]; discriminate.
Defined.

(** The page after a submission that went through. *)
Lemma verified_user_rejoins_witness :
  let st1 := snd (post_verify_gov Sample.calm Sample.body8
                    (Sample.state_of others "ann")) in
  get_verify_gov Sample.calm 2026 st1
  = (Ok (Answer (Redirect 303 "/messages/success")),
     mkSt (store st1) (session st1)
          (log st1 ++ [EDb (Find (user_query "ann"));
                       ETeamJoin (Some "tok")])).
Proof.
  apply (verified_user_rejoins Sample.calm (Sample.state_of others "ann")
           Sample.body8 "ann" (Boolean true) (Boolean true)
           (Some 1990%float) 2026).
  - reflexivity.
  - reflexivity.
  - reflexivity.
  - intros p [ <- | [ <- | [] ] ] Hb E.
    + vm_compute in E. discriminate E.
    + discriminate Hb.
  - reflexivity.
  - reflexivity.
  - reflexivity.
  - intros op. reflexivity.
  - intros p [ <- | [ <- | [] ] ] E; discriminate E.
Defined.

(** The page of a member after the ban, and after an unban. *)
Lemma moderation_shows_on_next_visit_witness :
  let st := Sample.state_of roster_store "boss" in
  let sess := Sample.user_session "ann" in
  let st1 := with_session (snd (post_players_ban Sample.calm "ann" st)) sess in
  let st2 := with_session (snd (post_players_unban Sample.calm "ann" st)) sess in
  get_verify_gov Sample.calm 2026 st1
  = (Ok (Answer (Redirect 303 "/messages/banned")),
     mkSt (store st1) sess (log st1 ++ [EDb (Find (user_query "ann"))]))
  /\ snd (get_verify_gov Sample.calm 2026 st2)
     = mkSt (store st2) sess
            (log st2 ++ [EDb (Find (user_query "ann"));
                         ETeamJoin (s_authToken sess)]).
Proof.
  apply (moderation_shows_on_next_visit Sample.calm
           (Sample.state_of roster_store "boss") "boss" "ann"
           (Sample.user_session "ann") 2026).
  - reflexivity.
  - reflexivity.
  - intros op. reflexivity.
  - exists (Sample.player "ann" "s1" false).
    split; [ left; reflexivity | reflexivity ].
  - reflexivity.
Defined.

(** A banned member's id, submitted from a second account, with a year
    the schema casts and with one it refuses. *)
Lemma ban_reaches_other_accounts_witness :
  let st := Sample.state_of twice_store "boss" in
  let sess := Sample.user_session "eve" in
  let st1 := with_session (snd (post_players_ban Sample.calm "ann" st)) sess in
  let idSig := Sha1.sha1_hex "12345678" in
  let r := new_player "eve" sess Sample.body8 (Some 1990%float) idSig true in
  post_verify_gov Sample.calm Sample.body8 st1
  = (Ok (Redirect 303 "/messages/banned"),
     mkSt (store st1 ++ [r]) sess
          (((log st1 ++ gov_events Sample.calm Sample.body8)
            ++ [EDb (Find (sig_query idSig))])
           ++ [EDb (Create r)]))
  /\ post_verify_gov Sample.calm body_abc st1
     = (Ok (Redirect 303 "/messages/error"),
        mkSt (store st1) sess
             ((log st1 ++ gov_events Sample.calm body_abc)
              ++ [EDb (Find (sig_query idSig))])).
Proof.
  assert (Hfresh : forall q, In q twice_store -> userId q = "eve" ->
                     govIdSignature q <> Sha1.sha1_hex "12345678").
  { intros q [ <- | [ <- | [ <- | [] ]]] E; discriminate E. }
  split.
  - apply (proj1 (ban_reaches_other_accounts Sample.calm
                    (Sample.state_of twice_store "boss") "boss" "ann" "eve"
                    (Sample.user_session "eve") Sample.body8 (Boolean true)
                    (Sample.player "ann" sig8 false)
                    eq_refl eq_refl (fun _ => eq_refl) eq_refl eq_refl eq_refl
                    Hfresh eq_refl eq_refl)).
    reflexivity.
  - apply (proj2 (ban_reaches_other_accounts Sample.calm
                    (Sample.state_of twice_store "boss") "boss" "ann" "eve"
                    (Sample.user_session "eve") body_abc (Boolean true)
                    (Sample.player "ann" sig8 false)
                    eq_refl eq_refl (fun _ => eq_refl) eq_refl eq_refl eq_refl
                    Hfresh eq_refl eq_refl) "CastError").
    reflexivity.
Defined.

(** The same submission sent twice. *)
Lemma reverification_duplicates_record_witness :
  let st := Sample.state_of others "ann" in
  let st1 := snd (post_verify_gov Sample.calm Sample.body8 st) in
  let r := new_player "ann" (Sample.user_session "ann") Sample.body8
                      (Some 1990%float) (Sha1.sha1_hex "12345678") false in
  fst (post_verify_gov Sample.calm Sample.body8 st1)
  = Ok (Redirect 303 "/messages/success")
  /\ store (snd (post_verify_gov Sample.calm Sample.body8 st1))
     = others ++ [r; r].
Proof.
  apply (reverification_duplicates_record Sample.calm
           (Sample.state_of others "ann") Sample.body8 "ann"
           (Boolean true) (Boolean true) (Some 1990%float)).
  - reflexivity.
  - reflexivity.
  - reflexivity.
  - intros p [ <- | [ <- | [] ] ] Hb E.
    + vm_compute in E. discriminate E.
    + discriminate Hb.
  - reflexivity.
  - reflexivity.
  - reflexivity.
  - intros op. reflexivity.
Defined.

(** ** Further properties: failures during a submission *)

(** X27. The team is joined before the record is written: when the
    join went through and the record then cannot be created, because
    the database refuses it or because the schema refuses the submitted
    year, the user is left on the error page with the join sent and no
    record stored. *)
Theorem join_survives_failed_create
  (w : World) (st : St) (body : VerifyBody) (uid : string) (status ok : Val) :
  authenticated (session st) = Some uid ->
  gov_answer w body = Ok status ->
  truthy status = true ->
  (forall p, In p (store st) -> banned p = true ->
             govIdSignature p <> Sha1.sha1_hex (b_id body)) ->
  team_join w (s_authToken (session st)) = Ok ok ->
  truthy ok = true ->
  let idSig := Sha1.sha1_hex (b_id body) in
  db_ok w (Find (sig_query idSig)) = true ->
  (forall y,
     castNumber w (b_year body) = Ok y ->
     let r := new_player uid (session st) body y idSig false in
     db_ok w (Create r) = false ->
     post_verify_gov w body st
     = (Ok (Redirect 303 "/messages/error"),
        mkSt (store st) (session st)
             (log st ++ gov_events w body
                ++ [EDb (Find (sig_query idSig));
                    ETeamJoin (s_authToken (session st));
                    EDb (Create r)])))
  /\ (forall e,
       castNumber w (b_year body) = Throw e ->
       post_verify_gov w body st
       = (Ok (Redirect 303 "/messages/error"),
          mkSt (store st) (session st)
               (log st ++ gov_events w body
                  ++ [EDb (Find (sig_query idSig));
                      ETeamJoin (s_authToken (session st))]))).
Proof.
  intros Hauth Hgov Hst Hnone Hjoin Hok idSig Hfind.
  assert (Hrun :
    post_verify_gov w body st
    = try_catch
        (bind (Player_create w (new_doc uid (session st) body idSig false))
              (fun _ => ret (Redirect 303 "/messages/success")))
        (fun err => ret (Redirect 303 "/messages/error"))
        (mkSt (store st) (session st)
              (((log st ++ gov_events w body)
                ++ [EDb (Find (sig_query idSig))])
               ++ [ETeamJoin (s_authToken (session st))]))).
  { unfold post_verify_gov, bind at 1, get_session. rewrite Hauth.
    unfold try_catch at 1, bind at 1. rewrite verifyUserGovId_run, Hgov, Hst.
    cbn [negb]. unfold bind at 1. fold idSig. fold (sig_query idSig).
    rewrite Player_find_run by exact Hfind.
    cbn [store session log].
    rewrite (no_banned_match idSig (store st) Hnone).
    cbn [List.length Nat.ltb Nat.leb].
    unfold bind at 1. rewrite joinTeam_run. cbn [store session log].
    rewrite Hjoin, Hok. reflexivity. }
  split.
  - intros y Hcast r Hcreate. subst r. rewrite Hrun.
    unfold try_catch, bind at 1.
    rewrite (Player_create_down w (new_doc uid (session st) body idSig false)
               y _ Hcast Hcreate).
    unfold ret. cbn [store session log].
    rewrite <- !app_assoc. reflexivity.
  - intros e Hcast. rewrite Hrun.
    unfold try_catch, bind at 1.
    rewrite (Player_create_uncast w (new_doc uid (session st) body idSig false)
               e _ Hcast).
    unfold ret. rewrite <- !app_assoc. reflexivity.
Qed.

(** X28. When the identity service fails, at the client set-up or at
    the call, the submission ends on the error page; the store is as
    before and neither the database nor the platform is asked. *)
Theorem identity_failure_shows_error
  (w : World) (st : St) (body : VerifyBody) (uid e : string) :
  authenticated (session st) = Some uid ->
  gov_answer w body = Throw e ->
  post_verify_gov w body st
  = (Ok (Redirect 303 "/messages/error"),
     mkSt (store st) (session st) (log st ++ gov_events w body))
  /\ (forall ev, In ev (gov_events w body) ->
                 ev = ESoapClient \/ exists a b c d, ev = ESoapVerify a b c d).
Proof.
  intros Hauth Hgov. split.
  - unfold post_verify_gov, bind at 1, get_session. rewrite Hauth.
    unfold try_catch, bind at 1. rewrite verifyUserGovId_run, Hgov.
    reflexivity.
  - intros ev. unfold gov_events.
    destruct (createClientAsync w); simpl; intros H.
    + destruct H as [ <- | [ <- | [] ] ]; [ left; reflexivity | ].
      right. do 4 eexists. reflexivity.
    + destruct H as [ <- | [] ]. left. reflexivity.
Qed.

(** X29. When the lookup of banned records fails, the submission ends
    on the error page before the platform is asked to join: no join
    request is sent and nothing is written. *)
Theorem lookup_failure_stops_before_join
  (w : World) (st : St) (body : VerifyBody) (uid : string) (status : Val) :
  authenticated (session st) = Some uid ->
  gov_answer w body = Ok status ->
  truthy status = true ->
  db_ok w (Find (sig_query (Sha1.sha1_hex (b_id body)))) = false ->
  post_verify_gov w body st
  = (Ok (Redirect 303 "/messages/error"),
     mkSt (store st) (session st)
          (log st ++ gov_events w body
             ++ [EDb (Find (sig_query (Sha1.sha1_hex (b_id body))))])).
Proof.
  intros Hauth Hgov Hst Hdb.
  unfold post_verify_gov, bind at 1, get_session. rewrite Hauth.
  unfold try_catch, bind at 1. rewrite verifyUserGovId_run, Hgov, Hst.
  cbn [negb]. unfold bind at 1.
  fold (sig_query (Sha1.sha1_hex (b_id body))).
  rewrite Player_find_down by exact Hdb.
  unfold ret. cbn [store session log].
  rewrite <- app_assoc. reflexivity.
Qed.

(** A join that went through while the database refuses to create,
    and one followed by a year the schema refuses. *)
Lemma join_survives_failed_create_witness :
  let idSig := Sha1.sha1_hex "12345678" in
  let r := new_player "ann" (Sample.user_session "ann") Sample.body8
                      (Some 1990%float) idSig false in
  post_verify_gov create_failing Sample.body8 (Sample.state_of others "ann")
  = (Ok (Redirect 303 "/messages/error"),
     mkSt others (Sample.user_session "ann")
          ([] ++ gov_events create_failing Sample.body8
              ++ [EDb (Find (sig_query idSig)); ETeamJoin (Some "tok");
                  EDb (Create r)]))
  /\ post_verify_gov Sample.calm body_abc (Sample.state_of others "ann")
     = (Ok (Redirect 303 "/messages/error"),
        mkSt others (Sample.user_session "ann")
             ([] ++ gov_events Sample.calm body_abc
                 ++ [EDb (Find (sig_query idSig)); ETeamJoin (Some "tok")])).
Proof.
  assert (Hnone : forall p, In p others -> banned p = true ->
                    govIdSignature p <> Sha1.sha1_hex "12345678").
  { intros p [ <- | [ <- | [] ] ] Hb E.
    - vm_compute in E. discriminate E.
    - discriminate Hb. }
  split.
  - apply (proj1 (join_survives_failed_create create_failing
                    (Sample.state_of others "ann") Sample.body8 "ann"
                    (Boolean true) (Boolean true)
                    eq_refl eq_refl eq_refl Hnone eq_refl eq_refl eq_refl)
                 (Some 1990%float));
      reflexivity.
  - apply (proj2 (join_survives_failed_create Sample.calm
                    (Sample.state_of others "ann") body_abc "ann"
                    (Boolean true) (Boolean true)
                    eq_refl eq_refl eq_refl Hnone eq_refl eq_refl eq_refl)
                 "CastError").
    reflexivity.
Defined.

(** The identity service cannot be reached. *)
Lemma identity_failure_shows_error_witness :
  post_verify_gov soap_down Sample.body8 (Sample.state_of others "ann")
  = (Ok (Redirect 303 "/messages/error"),
     mkSt others (Sample.user_session "ann")
          ([] ++ gov_events soap_down Sample.body8))
  /\ (forall ev, In ev (gov_events soap_down Sample.body8) ->
                 ev = ESoapClient \/ exists a b c d, ev = ESoapVerify a b c d).
Proof.
  apply (identity_failure_shows_error soap_down
           (Sample.state_of others "ann") Sample.body8 "ann" "ECONNREFUSED");
    reflexivity.
Defined.

(** The database refuses the lookup. *)
Lemma lookup_failure_stops_before_join_witness :
  post_verify_gov db_down Sample.body8 (Sample.state_of others "ann")
  = (Ok (Redirect 303 "/messages/error"),
     mkSt others (Sample.user_session "ann")
          ([] ++ gov_events db_down Sample.body8
              ++ [EDb (Find (sig_query (Sha1.sha1_hex "12345678")))])).
Proof.
  apply (lookup_failure_stops_before_join db_down
           (Sample.state_of others "ann") Sample.body8 "ann" (Boolean true));
    reflexivity.
Defined.
